(** * crocoddyl: the centre-of-pressure support region [CoPSupportTpl]

    A shallow embedding of [include/crocoddyl/multibody/cop-support.hxx]
    and the properties of its constructors, of [update], of the three
    setters and of the printing operator.

    The class is a template over [Scalar].  The embedding keeps that: the
    definitions are written over a type class [ScalarTraits] that lists
    the scalar operations the code uses, and the instance [double] gives
    them for IEEE-754 binary64 through Rocq's primitive floats, which is
    [CoPSupportTpl<double>], the instantiation crocoddyl ships as
    [CoPSupport].

    The object is a record of its six data members.  A method is a
    function on the pair of the object and the text written to
    [std::cerr]; a constructor returns such a pair, with the object it
    builds. *)

From Stdlib Require Import Floats String List Bool ZArith PArith Lia.
Import ListNotations.

#[local] Set Warnings "-inexact-float".
#[local] Set Implicit Arguments.

(** ** The scalar type *)

(** What [cop-support.hxx] and the Eigen operations it calls need from
    [Scalar]. *)
Class ScalarTraits (Scalar : Type) : Type := {
  Szero : Scalar;                      (* Scalar(0.) *)
  Sone : Scalar;                       (* Scalar(1.) *)
  Stwo : Scalar;                       (* Scalar(2.) *)
  Shalf : Scalar;                      (* Scalar(0.5) *)
  Smax : Scalar;                       (* std::numeric_limits<Scalar>::max() *)
  dummy_precision : Scalar;            (* Eigen::NumTraits<Scalar>::dummy_precision() *)
  Sadd : Scalar -> Scalar -> Scalar;
  Ssub : Scalar -> Scalar -> Scalar;
  Smul : Scalar -> Scalar -> Scalar;
  Sdiv : Scalar -> Scalar -> Scalar;
  Sopp : Scalar -> Scalar;
  Sabs : Scalar -> Scalar;
  Ssqrt : Scalar -> Scalar;
  Seqb : Scalar -> Scalar -> bool;     (* operator== *)
  Sltb : Scalar -> Scalar -> bool;     (* operator<  *)
  Sleb : Scalar -> Scalar -> bool      (* operator<= *)
}.

Declare Scope scalar_scope.
Delimit Scope scalar_scope with S.
Infix "+" := Sadd : scalar_scope.
Infix "-" := Ssub : scalar_scope.
Infix "*" := Smul : scalar_scope.
Infix "/" := Sdiv : scalar_scope.
Notation "- x" := (Sopp x) : scalar_scope.
Infix "==" := Seqb (at level 70, no associativity) : scalar_scope.
Infix "<?" := Sltb (at level 70, no associativity) : scalar_scope.
Infix "<=?" := Sleb (at level 70, no associativity) : scalar_scope.

(** ** Eigen: the fixed-size vectors and matrices of [MathBaseTpl] *)

Module Eigen.

Section Types.
Variable Scalar : Type.

Record Vector2s : Type := Vec2 { v2_0 : Scalar; v2_1 : Scalar }.

Record Vector3s : Type :=
  Vec3 { v3_0 : Scalar; v3_1 : Scalar; v3_2 : Scalar }.

Record Vector4s : Type :=
  Vec4 { v4_0 : Scalar; v4_1 : Scalar; v4_2 : Scalar; v4_3 : Scalar }.

(** A row of a [Matrix46s]; also the type of a spatial force
    (three linear components, then three angular ones). *)
Record Vector6s : Type :=
  Vec6 { v6_0 : Scalar; v6_1 : Scalar; v6_2 : Scalar;
         v6_3 : Scalar; v6_4 : Scalar; v6_5 : Scalar }.

(** [Matrix3s], given by its rows: [m3_row1 M] is [M.row(1)]. *)
Record Matrix3s : Type :=
  Mat3 { m3_row0 : Vector3s; m3_row1 : Vector3s; m3_row2 : Vector3s }.

(** [Matrix46s], given by its rows. *)
Record Matrix46s : Type :=
  Mat46 { m46_row0 : Vector6s; m46_row1 : Vector6s;
          m46_row2 : Vector6s; m46_row3 : Vector6s }.
End Types.

Arguments Vec2 {Scalar}.
Arguments Vec3 {Scalar}.
Arguments Vec4 {Scalar}.
Arguments Vec6 {Scalar}.
Arguments Mat3 {Scalar}.
Arguments Mat46 {Scalar}.

Section Operations.
Context {Scalar : Type} {traits : ScalarTraits Scalar}.
Local Open Scope scalar_scope.

(** [Vector3s::UnitZ()] *)
Definition UnitZ : Vector3s Scalar := Vec3 Szero Szero Sone.

(** [Matrix3s::Identity()] *)
Definition Identity : Matrix3s Scalar :=
  Mat3 (Vec3 Sone Szero Szero) (Vec3 Szero Sone Szero) (Vec3 Szero Szero Sone).

(** [setZero()] and [setOnes()] on the fixed sizes the class holds. *)
Definition Zero4 : Vector4s Scalar := Vec4 Szero Szero Szero Szero.
Definition Ones4 : Vector4s Scalar := Vec4 Sone Sone Sone Sone.
Definition Zero6 : Vector6s Scalar := Vec6 Szero Szero Szero Szero Szero Szero.
Definition Zero46 : Matrix46s Scalar := Mat46 Zero6 Zero6 Zero6 Zero6.

(** [M.col(j)] *)
Definition col0 (M : Matrix3s Scalar) : Vector3s Scalar :=
  Vec3 (v3_0 (m3_row0 M)) (v3_0 (m3_row1 M)) (v3_0 (m3_row2 M)).
Definition col1 (M : Matrix3s Scalar) : Vector3s Scalar :=
  Vec3 (v3_1 (m3_row0 M)) (v3_1 (m3_row1 M)) (v3_1 (m3_row2 M)).
Definition col2 (M : Matrix3s Scalar) : Vector3s Scalar :=
  Vec3 (v3_2 (m3_row0 M)) (v3_2 (m3_row1 M)) (v3_2 (m3_row2 M)).

(** [M.transpose()] *)
Definition transpose (M : Matrix3s Scalar) : Matrix3s Scalar :=
  Mat3 (col0 M) (col1 M) (col2 M).

(** [-v] and [s * v], coefficient by coefficient. *)
Definition vopp (v : Vector3s Scalar) : Vector3s Scalar :=
  Vec3 (- v3_0 v) (- v3_1 v) (- v3_2 v).
Definition vscale (s : Scalar) (v : Vector3s Scalar) : Vector3s Scalar :=
  Vec3 (s * v3_0 v) (s * v3_1 v) (s * v3_2 v).

(** [v /= s] (and [v / s]): every coefficient is divided by [s]. *)
Definition vdiv (v : Vector3s Scalar) (s : Scalar) : Vector3s Scalar :=
  Vec3 (v3_0 v / s) (v3_1 v / s) (v3_2 v / s).

(** [v *= s] on a [Vector4s]: every coefficient is multiplied by [s]. *)
Definition vmul4 (v : Vector4s Scalar) (s : Scalar) : Vector4s Scalar :=
  Vec4 (v4_0 v * s) (v4_1 v * s) (v4_2 v * s) (v4_3 v * s).

(** The sum of three terms as Eigen's unrolled reduction takes it: the
    first against the sum of the other two. *)
Definition sum3 (a b c : Scalar) : Scalar := a + (b + c).

(** [a.dot(b)] *)
Definition dot (a b : Vector3s Scalar) : Scalar :=
  sum3 (v3_0 a * v3_0 b) (v3_1 a * v3_1 b) (v3_2 a * v3_2 b).

(** [M * v] for a 3x3 matrix and a 3-vector. *)
Definition mulMv (M : Matrix3s Scalar) (v : Vector3s Scalar) : Vector3s Scalar :=
  Vec3 (dot (m3_row0 M) v) (dot (m3_row1 M) v) (dot (m3_row2 M) v).

(** [v.squaredNorm()] and [v.norm()] *)
Definition squaredNorm (v : Vector3s Scalar) : Scalar := dot v v.
Definition norm (v : Vector3s Scalar) : Scalar := Ssqrt (squaredNorm v).

(** [numext::mini(x, y)] *)
Definition mini (x y : Scalar) : Scalar := if y <? x then y else x.

(** [internal::isApprox(x, y, prec)] on scalars:
    [abs(x - y) <= mini(abs(x), abs(y)) * prec]. *)
Definition isApprox (x y prec : Scalar) : bool :=
  Sabs (x - y) <=? mini (Sabs x) (Sabs y) * prec.

(** [v.isUnitary()] with the default precision.  A vector has one
    column, so the test is on its squared norm alone. *)
Definition isUnitary (v : Vector3s Scalar) : bool :=
  isApprox (squaredNorm v) Sone dummy_precision.

(** The comma initialiser [row << a, b] of a row of six from two
    blocks of three. *)
Definition comma (a b : Vector3s Scalar) : Vector6s Scalar :=
  Vec6 (v3_0 a) (v3_1 a) (v3_2 a) (v3_0 b) (v3_1 b) (v3_2 b).

(** [v(i) = s] on a [Vector2s]. *)
Definition set2_0 (v : Vector2s Scalar) (s : Scalar) : Vector2s Scalar :=
  Vec2 s (v2_1 v).
Definition set2_1 (v : Vector2s Scalar) (s : Scalar) : Vector2s Scalar :=
  Vec2 (v2_0 v) s.

(** [a == b]: every pair of coefficients compares equal. *)
Definition veqb6 (a b : Vector6s Scalar) : bool :=
  (v6_0 a == v6_0 b) && (v6_1 a == v6_1 b) && (v6_2 a == v6_2 b) &&
  (v6_3 a == v6_3 b) && (v6_4 a == v6_4 b) && (v6_5 a == v6_5 b).
Definition meqb46 (A B : Matrix46s Scalar) : bool :=
  veqb6 (m46_row0 A) (m46_row0 B) && veqb6 (m46_row1 A) (m46_row1 B) &&
  veqb6 (m46_row2 A) (m46_row2 B) && veqb6 (m46_row3 A) (m46_row3 B).

(** [A * w] for the 4x6 matrix and a spatial force: each row against
    [w], the six products summed as two halves of three. *)
Definition dot6 (a w : Vector6s Scalar) : Scalar :=
  sum3 (v6_0 a * v6_0 w) (v6_1 a * v6_1 w) (v6_2 a * v6_2 w)
  + sum3 (v6_3 a * v6_3 w) (v6_4 a * v6_4 w) (v6_5 a * v6_5 w).
Definition mulAw (A : Matrix46s Scalar) (w : Vector6s Scalar) : Vector4s Scalar :=
  Vec4 (dot6 (m46_row0 A) w) (dot6 (m46_row1 A) w)
       (dot6 (m46_row2 A) w) (dot6 (m46_row3 A) w).

(** [internal::isMuchSmallerThan(x, y, prec)] on scalars. *)
Definition isMuchSmallerThan (x y prec : Scalar) : bool :=
  Sabs x <=? Sabs y * prec.

(** [M.isUnitary()] on a 3x3 matrix: every column of squared norm 1
    and every two columns orthogonal, up to the default precision. *)
Definition isUnitaryMatrix (M : Matrix3s Scalar) : bool :=
  isApprox (squaredNorm (col0 M)) Sone dummy_precision &&
  isApprox (squaredNorm (col1 M)) Sone dummy_precision &&
  isMuchSmallerThan (dot (col1 M) (col0 M)) Sone dummy_precision &&
  isApprox (squaredNorm (col2 M)) Sone dummy_precision &&
  isMuchSmallerThan (dot (col2 M) (col0 M)) Sone dummy_precision &&
  isMuchSmallerThan (dot (col2 M) (col1 M)) Sone dummy_precision.

(** [M.determinant()], by the first row. *)
Definition determinant (M : Matrix3s Scalar) : Scalar :=
  let r0 := m3_row0 M in
  let r1 := m3_row1 M in
  let r2 := m3_row2 M in
  sum3 (v3_0 r0 * (v3_1 r1 * v3_2 r2 - v3_2 r1 * v3_1 r2))
       (- (v3_1 r0 * (v3_0 r1 * v3_2 r2 - v3_2 r1 * v3_0 r2)))
       (v3_2 r0 * (v3_0 r1 * v3_1 r2 - v3_1 r1 * v3_0 r2)).
End Operations.

(** *** Dynamic sizes *)

Section Dynamic.
Variable Scalar : Type.

(** [VectorXs], by its coefficients, and [MatrixXs], by its rows. *)
Definition VectorXs : Type := list Scalar.
Definition MatrixXs : Type := list VectorXs.

(** A fixed-size vector or matrix built from a dynamic one, as in
    [Vector4s v(x)] and [Matrix46s A(X)].  Eigen takes the
    coefficients over when the sizes agree; it asserts that they do,
    and there is no object when they do not. *)
Definition Vector4s_of (v : VectorXs) : option (Vector4s Scalar) :=
  match v with
  | [a; b; c; d] => Some (Vec4 a b c d)
  | _ => None
  end.

Definition Vector6s_of (v : VectorXs) : option (Vector6s Scalar) :=
  match v with
  | [a; b; c; d; e; f] => Some (Vec6 a b c d e f)
  | _ => None
  end.

Definition Matrix46s_of (M : MatrixXs) : option (Matrix46s Scalar) :=
  match M with
  | [r0; r1; r2; r3] =>
      match Vector6s_of r0, Vector6s_of r1, Vector6s_of r2, Vector6s_of r3 with
      | Some a, Some b, Some c, Some d => Some (Mat46 a b c d)
      | _, _, _, _ => None
      end
  | _ => None
  end.




(** [v.size() == 4]; [M.rows() == 4 && M.cols() == 6]. *)
Definition has_size (n : nat) (v : VectorXs) : bool := Nat.eqb (length v) n.
Definition is_4x6 (M : MatrixXs) : bool :=
  Nat.eqb (length M) 4 && forallb (has_size 6) M.
End Dynamic.

(** *** Geometry: the quaternion between two directions *)

Section Geometry.
Context {Scalar : Type} {traits : ScalarTraits Scalar}.
Local Open Scope scalar_scope.

(** [Quaternions], by its four coefficients. *)
Record Quaternions : Type :=
  Quat { qw : Scalar; qx : Scalar; qy : Scalar; qz : Scalar }.

(** In [setFromTwoVectors] the axis for two opposite directions is the
    last right singular vector of the 2x3 matrix of the two
    directions, taken from a [JacobiSVD].  The decomposition is not
    modelled; the axis it yields is a parameter. *)
Variable svd_axis : Vector3s Scalar -> Vector3s Scalar -> Vector3s Scalar.

(** [v.normalized()] *)
Definition normalized (v : Vector3s Scalar) : Vector3s Scalar :=
  let z := squaredNorm v in
  if Szero <? z then vdiv v (Ssqrt z) else v.

(** [a.cross(b)] *)
Definition cross (a b : Vector3s Scalar) : Vector3s Scalar :=
  Vec3 (v3_1 a * v3_2 b - v3_2 a * v3_1 b)
       (v3_2 a * v3_0 b - v3_0 a * v3_2 b)
       (v3_0 a * v3_1 b - v3_1 a * v3_0 b).

(** [v * s] *)
Definition vtimes (v : Vector3s Scalar) (s : Scalar) : Vector3s Scalar :=
  Vec3 (v3_0 v * s) (v3_1 v * s) (v3_2 v * s).

(** [numext::maxi(x, y)] *)
Definition maxi (x y : Scalar) : Scalar := if x <? y then y else x.

(** [Quaternions::FromTwoVectors(a, b)] *)
Definition FromTwoVectors (a b : Vector3s Scalar) : Quaternions :=
  let v0 := normalized a in
  let v1 := normalized b in
  let c := dot v1 v0 in
  if c <? (- Sone) + dummy_precision then
    (* the two directions are nearly opposite *)
    let c := maxi c (- Sone) in
    let axis := svd_axis v0 v1 in
    let w2 := (Sone + c) * Shalf in
    let vec := vtimes axis (Ssqrt (Sone - w2)) in
    Quat (Ssqrt w2) (v3_0 vec) (v3_1 vec) (v3_2 vec)
  else
    let axis := cross v0 v1 in
    let s := Ssqrt ((Sone + c) * Stwo) in
    let invs := Sone / s in
    let vec := vtimes axis invs in
    Quat (s * Shalf) (v3_0 vec) (v3_1 vec) (v3_2 vec).

(** [q.toRotationMatrix()] *)
Definition toRotationMatrix (q : Quaternions) : Matrix3s Scalar :=
  let tx := Stwo * qx q in
  let ty := Stwo * qy q in
  let tz := Stwo * qz q in
  let twx := tx * qw q in
  let twy := ty * qw q in
  let twz := tz * qw q in
  let txx := tx * qx q in
  let txy := ty * qx q in
  let txz := tz * qx q in
  let tyy := ty * qy q in
  let tyz := tz * qy q in
  let tzz := tz * qz q in
  Mat3 (Vec3 (Sone - (tyy + tzz)) (txy - twz) (txz + twy))
       (Vec3 (txy + twz) (Sone - (txx + tzz)) (tyz - twx))
       (Vec3 (txz - twy) (tyz + twx) (Sone - (txx + tyy))).

(** [Quaternions::FromTwoVectors(a, b).toRotationMatrix()] *)
Definition rotation_between (a b : Vector3s Scalar) : Matrix3s Scalar :=
  toRotationMatrix (FromTwoVectors a b).
End Geometry.

End Eigen.

(** ** crocoddyl *)

Module crocoddyl.
Import Eigen.

(** *** The wrench cone, as far as [CoPSupportTpl] reads it *)

Module WrenchCone.
Section WrenchCone.
Variable Scalar : Type.

(** Modelled from the spec: [WrenchConeTpl] is declared outside
    [cop-support.hxx].  The constructor that takes one reads six
    getters; the wrench cone is modelled as the record of what they
    return.  The spec gives the shapes: "read access to its matrix
    (4-or-more rows x 6 columns, or wider), bounds vectors,
    orientation, normal, extent".  So the matrix is a dynamic one, of
    any number of rows and columns, and the two bounds are dynamic
    vectors; orientation, normal and extent have the sizes of the
    members they initialise. *)
Record WrenchConeTpl : Type := {
  get_A : MatrixXs Scalar;
  get_ub : VectorXs Scalar;
  get_lb : VectorXs Scalar;
  get_R : Matrix3s Scalar;
  get_nsurf : Vector3s Scalar;
  get_box : Vector2s Scalar
}.
End WrenchCone.
End WrenchCone.

(** *** The data members *)

Section Members.
Variable Scalar : Type.

Record CoPSupportTpl : Type := {
  A_ : Matrix46s Scalar;      (* inequality matrix *)
  ub_ : Vector4s Scalar;      (* upper bound *)
  lb_ : Vector4s Scalar;      (* lower bound *)
  R_ : Matrix3s Scalar;       (* rotation of the support frame *)
  nsurf_ : Vector3s Scalar;   (* surface normal *)
  box_ : Vector2s Scalar      (* dimension of the support region *)
}.

(** What the storage of [A_], [ub_] and [lb_] holds when the body of
    a constructor starts: the three have no member initialiser, and
    their contents are indeterminate. *)
Record Indeterminate : Type := {
  raw_A : Matrix46s Scalar;
  raw_ub : Vector4s Scalar;
  raw_lb : Vector4s Scalar
}.

(** The object a method runs on, together with what has been written
    to [std::cerr], one line per entry, oldest first. *)
Record State : Type := { this : CoPSupportTpl; cerr : list string }.

(** A method (or a statement of one) returning an [A]. *)
Definition Method (A : Type) : Type := State -> A * State.

Definition ret {A : Type} (a : A) : Method A := fun s => (a, s).

Definition bind {A B : Type} (m : Method A) (k : A -> Method B) : Method B :=
  fun s => let (a, s') := m s in k a s'.

(** Read a member. *)
Definition load {A : Type} (member : CoPSupportTpl -> A) : Method A :=
  fun s => (member (this s), s).

(** Assign to the object. *)
Definition modify (f : CoPSupportTpl -> CoPSupportTpl) : Method unit :=
  fun s => (tt, {| this := f (this s); cerr := cerr s |}).

(** [std::cerr << msg << std::endl] *)
Definition print (msg : string) : Method unit :=
  fun s => (tt, {| this := this s; cerr := cerr s ++ [msg] |}).

(** [if (b) { m }] *)
Definition when (b : bool) (m : Method unit) : Method unit :=
  if b then m else ret tt.

(** The state a call leaves. *)
Definition run {A : Type} (m : Method A) (s : State) : State := snd (m s).

(** A freshly built object: nothing has been written yet. *)
Definition fresh (c : CoPSupportTpl) : State := {| this := c; cerr := [] |}.

(** Assignments to the single members. *)
Definition store_A (A : Matrix46s Scalar) : Method unit :=
  modify (fun c => {| A_ := A; ub_ := ub_ c; lb_ := lb_ c;
                      R_ := R_ c; nsurf_ := nsurf_ c; box_ := box_ c |}).
Definition store_ub (ub : Vector4s Scalar) : Method unit :=
  modify (fun c => {| A_ := A_ c; ub_ := ub; lb_ := lb_ c;
                      R_ := R_ c; nsurf_ := nsurf_ c; box_ := box_ c |}).
Definition store_lb (lb : Vector4s Scalar) : Method unit :=
  modify (fun c => {| A_ := A_ c; ub_ := ub_ c; lb_ := lb;
                      R_ := R_ c; nsurf_ := nsurf_ c; box_ := box_ c |}).
Definition store_R (R : Matrix3s Scalar) : Method unit :=
  modify (fun c => {| A_ := A_ c; ub_ := ub_ c; lb_ := lb_ c;
                      R_ := R; nsurf_ := nsurf_ c; box_ := box_ c |}).
Definition store_nsurf (n : Vector3s Scalar) : Method unit :=
  modify (fun c => {| A_ := A_ c; ub_ := ub_ c; lb_ := lb_ c;
                      R_ := R_ c; nsurf_ := n; box_ := box_ c |}).
Definition store_box (b : Vector2s Scalar) : Method unit :=
  modify (fun c => {| A_ := A_ c; ub_ := ub_ c; lb_ := lb_ c;
                      R_ := R_ c; nsurf_ := nsurf_ c; box_ := b |}).

(** [A_.row(i) << ...]: one row of [A_] is overwritten. *)
Definition store_A_row0 (r : Vector6s Scalar) : Method unit :=
  bind (load A_) (fun A =>
    store_A (Mat46 r (m46_row1 A) (m46_row2 A) (m46_row3 A))).
Definition store_A_row1 (r : Vector6s Scalar) : Method unit :=
  bind (load A_) (fun A =>
    store_A (Mat46 (m46_row0 A) r (m46_row2 A) (m46_row3 A))).
Definition store_A_row2 (r : Vector6s Scalar) : Method unit :=
  bind (load A_) (fun A =>
    store_A (Mat46 (m46_row0 A) (m46_row1 A) r (m46_row3 A))).
Definition store_A_row3 (r : Vector6s Scalar) : Method unit :=
  bind (load A_) (fun A =>
    store_A (Mat46 (m46_row0 A) (m46_row1 A) (m46_row2 A) r)).
End Members.

Arguments A_ {Scalar}.
Arguments ub_ {Scalar}.
Arguments lb_ {Scalar}.
Arguments R_ {Scalar}.
Arguments nsurf_ {Scalar}.
Arguments box_ {Scalar}.
Arguments ret {Scalar A}.
Arguments load {Scalar A}.
Arguments print {Scalar}.

Declare Scope method_scope.
Delimit Scope method_scope with method.
Notation "x <- m ;; k" := (bind m (fun x => k))
  (at level 61, m at next level, right associativity) : method_scope.
Notation "m ;; k" := (bind m (fun _ => k))
  (at level 61, right associativity) : method_scope.

(** *** The member functions *)

Section CoPSupport.
Context {Scalar : Type} {traits : ScalarTraits Scalar}.
Local Open Scope scalar_scope.
Local Open Scope method_scope.

(** [Quaternions::FromTwoVectors(a, b).toRotationMatrix()], Eigen's
    rotation that takes the direction of [a] to the direction of [b]
    by the shortest arc.  The class only calls it; it is a parameter
    of the two functions that do; [Eigen.rotation_between] is
    Eigen's own, up to the axis it takes for opposite directions. *)
Variable FromTwoVectors_toRotationMatrix :
  Vector3s Scalar -> Vector3s Scalar -> Matrix3s Scalar.

(** [void update()] *)
Definition update : Method Scalar unit :=
  (* Initialize the matrix and bounds *)
  store_A Zero46 ;;
  store_ub Zero4 ;;
  store_lb Ones4 ;;
  lb <- load lb_ ;;
  store_lb (vmul4 lb (- Smax)) ;;
  (* CoP information *)
  box <- load box_ ;;
  let L := v2_0 box / Stwo in
  let W := v2_1 box / Stwo in
  R <- load R_ ;;
  store_A_row0 (comma (vscale (- W) (col2 R)) (col0 R)) ;;
  store_A_row1 (comma (vscale (- W) (col2 R)) (vopp (col0 R))) ;;
  store_A_row2 (comma (vscale (- L) (col2 R)) (col1 R)) ;;
  store_A_row3 (comma (vscale (- L) (col2 R)) (vopp (col1 R))).

(** The body the first three constructors share:
    [A_.setZero(); ub_.setZero(); lb_.setZero(); update();] *)
Definition constructor_body : Method Scalar unit :=
  store_A Zero46 ;;
  store_ub Zero4 ;;
  store_lb Zero4 ;;
  update.

(** An object after its member initialisers [R_(R), nsurf_(n),
    box_(box)].  [A_], [ub_] and [lb_] have no initialiser: they hold
    whatever the storage held, [raw]. *)
Definition initialised (raw : Indeterminate Scalar)
    (R : Matrix3s Scalar) (n : Vector3s Scalar) (box : Vector2s Scalar)
    : State Scalar :=
  fresh {| A_ := raw_A raw; ub_ := raw_ub raw; lb_ := raw_lb raw;
           R_ := R; nsurf_ := n; box_ := box |}.

(** [CoPSupportTpl()], on storage that holds [raw]. *)
Definition CoPSupportTpl_default (raw : Indeterminate Scalar) : State Scalar :=
  run constructor_body (initialised raw Identity UnitZ (Vec2 Smax Smax)).

(** [CoPSupportTpl(const Matrix3s& R, const Vector2s& box)] *)
Definition CoPSupportTpl_R_box (raw : Indeterminate Scalar)
    (R : Matrix3s Scalar) (box : Vector2s Scalar) : State Scalar :=
  run constructor_body (initialised raw R (mulMv (transpose R) UnitZ) box).

(** [CoPSupportTpl(const Vector3s& nsurf, const Vector2s& box)] *)
Definition CoPSupportTpl_nsurf_box (raw : Indeterminate Scalar)
    (nsurf : Vector3s Scalar) (box : Vector2s Scalar) : State Scalar :=
  run constructor_body
      (initialised raw (FromTwoVectors_toRotationMatrix nsurf UnitZ) nsurf box).

(** [CoPSupportTpl(const WrenchConeTpl<Scalar>& support)]: six member
    initialisers and an empty body.  [A_], [ub_] and [lb_] are
    fixed-size and the cone's matrix and bounds are dynamic: each is
    built from the cone's when the sizes agree, and the constructor
    gives no object when Eigen's size assertion fails. *)
Definition CoPSupportTpl_WrenchCone
    (support : WrenchCone.WrenchConeTpl Scalar) : option (State Scalar) :=
  match Matrix46s_of (WrenchCone.get_A support),
        Vector4s_of (WrenchCone.get_ub support),
        Vector4s_of (WrenchCone.get_lb support) with
  | Some A, Some ub, Some lb =>
      Some (fresh {| A_ := A; ub_ := ub; lb_ := lb;
                     R_ := WrenchCone.get_R support;
                     nsurf_ := WrenchCone.get_nsurf support;
                     box_ := WrenchCone.get_box support |})
  | _, _, _ => None
  end.

(** The getters, on the object a state holds. *)
Definition get_A (s : State Scalar) : Matrix46s Scalar := A_ (this s).
Definition get_ub (s : State Scalar) : Vector4s Scalar := ub_ (this s).
Definition get_lb (s : State Scalar) : Vector4s Scalar := lb_ (this s).
Definition get_box (s : State Scalar) : Vector2s Scalar := box_ (this s).
Definition get_R (s : State Scalar) : Matrix3s Scalar := R_ (this s).
Definition get_nsurf (s : State Scalar) : Vector3s Scalar := nsurf_ (this s).

(** [void set_R(const Matrix3s& R)] *)
Definition set_R (R : Matrix3s Scalar) : Method Scalar unit :=
  store_R R ;;
  R' <- load R_ ;;
  store_nsurf (mulMv (transpose R') UnitZ).

Definition warn_nsurf : string :=
  "Warning: normal is not an unitary vector, then we normalized it".

(** [void set_nsurf(const Vector3s& nsurf)] *)
Definition set_nsurf (nsurf : Vector3s Scalar) : Method Scalar unit :=
  store_nsurf nsurf ;;
  (* Sanity checks *)
  when (negb (isUnitary nsurf))
       (n <- load nsurf_ ;;
        store_nsurf (vdiv n (norm nsurf)) ;;
        print warn_nsurf) ;;
  n <- load nsurf_ ;;
  store_R (FromTwoVectors_toRotationMatrix n UnitZ).

(** Both branches of [set_box] write this same line. *)
Definition warn_box : string :=
  "Warning: box(0) has to be a positive value, set to max. float".

(** [void set_box(const Vector2s& box)] *)
Definition set_box (box : Vector2s Scalar) : Method Scalar unit :=
  store_box box ;;
  b <- load box_ ;;
  when (v2_0 b <? Szero)
       (b <- load box_ ;;
        store_box (set2_0 b Smax) ;;
        print warn_box) ;;
  b <- load box_ ;;
  when (v2_1 b <? Szero)
       (b <- load box_ ;;
        store_box (set2_1 b Smax) ;;
        print warn_box).
End CoPSupport.

(** *** What the specification asks of a support region *)

Section Properties.
Context {Scalar : Type} {traits : ScalarTraits Scalar}.
Local Open Scope scalar_scope.

(** The stored matrix and bounds are the ones [update] derives from
    the orientation and extent the object holds now. *)
Definition Derived (s : State Scalar) : Prop :=
  get_A s = get_A (run update s) /\
  get_ub s = get_ub (run update s) /\
  get_lb s = get_lb (run update s).

(** A spatial force [w] meets the four rows:
    [lb <= A * w <= ub], row by row. *)
Definition satisfies (s : State Scalar) (w : Vector6s Scalar) : bool :=
  let y := mulAw (get_A s) w in
  let lb := get_lb s in
  let ub := get_ub s in
  (v4_0 lb <=? v4_0 y) && (v4_0 y <=? v4_0 ub) &&
  (v4_1 lb <=? v4_1 y) && (v4_1 y <=? v4_1 ub) &&
  (v4_2 lb <=? v4_2 y) && (v4_2 y <=? v4_2 ub) &&
  (v4_3 lb <=? v4_3 y) && (v4_3 y <=? v4_3 ub).

(** A proper rotation up to tolerance: orthonormal columns and
    determinant +1, with Eigen's tests and default precision. *)
Definition is_proper_rotation (R : Matrix3s Scalar) : bool :=
  isUnitaryMatrix R && isApprox (determinant R) Sone dummy_precision.

(** Some coefficient of [n] is not zero. *)
Definition nonzero (n : Vector3s Scalar) : bool :=
  negb ((v3_0 n == Szero) && (v3_1 n == Szero) && (v3_2 n == Szero)).

Variable q : Vector3s Scalar -> Vector3s Scalar -> Matrix3s Scalar.

(** The states a caller can bring about: one of the three constructors
    that derive, then any calls of [update] and of the setters. *)
Inductive Reachable : State Scalar -> Prop :=
| reach_default raw : Reachable (CoPSupportTpl_default raw)
| reach_R_box raw R box : Reachable (CoPSupportTpl_R_box raw R box)
| reach_nsurf_box raw n box : Reachable (CoPSupportTpl_nsurf_box q raw n box)
| reach_update s : Reachable s -> Reachable (run update s)
| reach_set_R s R : Reachable s -> Reachable (run (set_R R) s)
| reach_set_nsurf s n : Reachable s -> Reachable (run (set_nsurf q n) s)
| reach_set_box s box : Reachable s -> Reachable (run (set_box box) s).
End Properties.

(** *** What [update] writes, and the shape it has *)

Section Derivation.
Context {Scalar : Type} {traits : ScalarTraits Scalar}.
Local Open Scope scalar_scope.

(** The four rows [update] assembles from an orientation and an
    extent. *)
Definition derived_matrix (R : Matrix3s Scalar) (box : Vector2s Scalar)
    : Matrix46s Scalar :=
  let L := v2_0 box / Stwo in
  let W := v2_1 box / Stwo in
  Mat46 (comma (vscale (- W) (col2 R)) (col0 R))
        (comma (vscale (- W) (col2 R)) (vopp (col0 R)))
        (comma (vscale (- L) (col2 R)) (col1 R))
        (comma (vscale (- L) (col2 R)) (vopp (col1 R))).

(** The lower bound [update] writes: ones, times [-max]. *)
Definition derived_lb : Vector4s Scalar := vmul4 Ones4 (- Smax).

(** Two rows with the same force block and opposite moment blocks. *)
Definition mirrored (a b : Vector6s Scalar) : Prop :=
  v6_0 b = v6_0 a /\ v6_1 b = v6_1 a /\ v6_2 b = v6_2 a /\
  v6_3 b = - v6_3 a /\ v6_4 b = - v6_4 a /\ v6_5 b = - v6_5 a.

(** Rows 0 and 1 are mirrored, and so are rows 2 and 3. *)
Definition box_symmetric (A : Matrix46s Scalar) : Prop :=
  mirrored (m46_row0 A) (m46_row1 A) /\ mirrored (m46_row2 A) (m46_row3 A).

(** A component of an extent is negative. *)
Definition negative (x : Scalar) : bool := x <? Szero.

(** A line is one of the two warnings the class writes. *)
Definition is_warning (line : string) : Prop :=
  line = warn_nsurf \/ line = warn_box.
End Derivation.

(** *** Wrench cones the members can hold *)

Section Shapes.
Variable Scalar : Type.

(** The cone's matrix is 4x6 and its two bounds have four entries:
    the sizes of [A_], [ub_] and [lb_]. *)
Definition fits_members (support : WrenchCone.WrenchConeTpl Scalar) : bool :=
  is_4x6 (WrenchCone.get_A support) &&
  has_size 4 (WrenchCone.get_ub support) &&
  has_size 4 (WrenchCone.get_lb support).
End Shapes.

(** *** Printing *)

Section Printing.
Variable Scalar : Type.

(** Eigen's [operator<<] with the default format, for the three shapes
    the class prints: a 3x3 matrix, and the row vectors a transposed
    [Vector3s] and a transposed [Vector2s] are.  The formatting of the
    coefficients is Eigen's; the three are parameters. *)
Variable print_Matrix3s : Matrix3s Scalar -> string.
Variable print_RowVector3s : Vector3s Scalar -> string.
Variable print_RowVector2s : Vector2s Scalar -> string.

(** [std::endl], as the character it puts on the stream. *)
Definition endl : string := String (Ascii.ascii_of_nat 10) EmptyString.

(** [os << text]: the stream is the text written to it so far. *)
Definition put (os text : string) : string := (os ++ text)%string.

(** [std::ostream& operator<<(std::ostream& os,
                              const CoPSupportTpl<Scalar>& X)] *)
Definition operator_lshift (os : string) (X : State Scalar) : string :=
  let os := put (put (put os "         R: ") (print_Matrix3s (get_R X))) endl in
  let os := put (put (put os "   (nsurf): ")
                     (print_RowVector3s (get_nsurf X))) endl in
  let os := put (put (put os "       box: ")
                     (print_RowVector2s (get_box X))) endl in
  os.
End Printing.

End crocoddyl.

(** ** [Scalar = double] *)

Module Double.
Local Open Scope float_scope.

(** IEEE-754 binary64 with round-to-nearest-even, as Rocq's primitive
    floats compute it.  [Smax] is [DBL_MAX]; Eigen's
    [dummy_precision] for [double] is [1e-12]. *)
#[export] Instance double : ScalarTraits float := {|
  Szero := 0%float;
  Sone := 1%float;
  Stwo := 2%float;
  Shalf := 0.5%float;
  Smax := 0x1.fffffffffffffp+1023%float;
  dummy_precision := 1e-12%float;
  Sadd := PrimFloat.add;
  Ssub := PrimFloat.sub;
  Smul := PrimFloat.mul;
  Sdiv := PrimFloat.div;
  Sopp := PrimFloat.opp;
  Sabs := PrimFloat.abs;
  Ssqrt := PrimFloat.sqrt;
  Seqb := PrimFloat.eqb;
  Sltb := PrimFloat.ltb;
  Sleb := PrimFloat.leb
|}.

(** Neither NaN nor an infinity. *)
Definition finite (x : float) : bool :=
  negb (PrimFloat.is_nan x || PrimFloat.is_infinity x).

Definition finite6 (v : Eigen.Vector6s float) : bool :=
  finite (Eigen.v6_0 v) && finite (Eigen.v6_1 v) && finite (Eigen.v6_2 v) &&
  finite (Eigen.v6_3 v) && finite (Eigen.v6_4 v) && finite (Eigen.v6_5 v).

Definition finite46 (A : Eigen.Matrix46s float) : bool :=
  finite6 (Eigen.m46_row0 A) && finite6 (Eigen.m46_row1 A) &&
  finite6 (Eigen.m46_row2 A) && finite6 (Eigen.m46_row3 A).

(** On the specification of a float: zero or finite, neither NaN nor
    an infinity. *)
Definition SFfinite (r : spec_float) : bool :=
  match r with
  | S754_zero _ | S754_finite _ _ _ => true
  | _ => false
  end.

(** The inputs the statements on [double] are evaluated at. *)
Definition zero_matrix : Eigen.Matrix3s float :=
  Eigen.Mat3 (Eigen.Vec3 0 0 0) (Eigen.Vec3 0 0 0) (Eigen.Vec3 0 0 0).

(** The extent with the sentinel in both places. *)
Definition unbounded : Eigen.Vector2s float := Eigen.Vec2 Smax Smax.

(** A pure moment about the first axis of the support frame, with no
    force at all. *)
Definition unit_moment_x : Eigen.Vector6s float := Eigen.Vec6 0 0 0 1 0 0.

(** The quarter turn about the first axis. *)
Definition quarter_turn_x : Eigen.Matrix3s float :=
  Eigen.Mat3 (Eigen.Vec3 1 0 0) (Eigen.Vec3 0 0 (-1)) (Eigen.Vec3 0 1 0).

(** One part in ten million million longer than a unit vector. *)
Definition nearly_unit : Eigen.Vector3s float :=
  Eigen.Vec3 1.0000000000001 0 0.

(** Storage that holds NaN in every place: whatever is read from it
    before it is written shows. *)
Definition nan_storage : crocoddyl.Indeterminate float :=
  {| crocoddyl.raw_A :=
       Eigen.Mat46 (Eigen.Vec6 nan nan nan nan nan nan)
                   (Eigen.Vec6 nan nan nan nan nan nan)
                   (Eigen.Vec6 nan nan nan nan nan nan)
                   (Eigen.Vec6 nan nan nan nan nan nan);
     crocoddyl.raw_ub := Eigen.Vec4 nan nan nan nan;
     crocoddyl.raw_lb := Eigen.Vec4 nan nan nan nan |}.

(** Four times the identity: no rotation. *)
Definition fourfold_identity : Eigen.Matrix3s float :=
  Eigen.Mat3 (Eigen.Vec3 4 0 0) (Eigen.Vec3 0 4 0) (Eigen.Vec3 0 0 4).

(** A coefficient of magnitude at most two, and an orientation all of
    whose coefficients are: every rotation, and every matrix that is
    one up to rounding. *)
Definition within_two (x : float) : bool :=
  PrimFloat.leb (PrimFloat.abs x) 2.

Definition within_two3 (v : Eigen.Vector3s float) : bool :=
  within_two (Eigen.v3_0 v) && within_two (Eigen.v3_1 v) &&
  within_two (Eigen.v3_2 v).

Definition entries_within_two (R : Eigen.Matrix3s float) : bool :=
  within_two3 (Eigen.m3_row0 R) && within_two3 (Eigen.m3_row1 R) &&
  within_two3 (Eigen.m3_row2 R).

(** A row of six zeros, as a dynamic vector. *)
Definition zero_row : Eigen.VectorXs float := [0; 0; 0; 0; 0; 0].

(** A wrench cone with a zero 4x6 matrix and zero bounds of size 4,
    that holds the identity orientation, the first axis as its normal
    and the unbounded extent. *)
Definition flat_cone : crocoddyl.WrenchCone.WrenchConeTpl float :=
  {| crocoddyl.WrenchCone.get_A := [zero_row; zero_row; zero_row; zero_row];
     crocoddyl.WrenchCone.get_ub := [0; 0; 0; 0];
     crocoddyl.WrenchCone.get_lb := [0; 0; 0; 0];
     crocoddyl.WrenchCone.get_R := Eigen.Identity;
     crocoddyl.WrenchCone.get_nsurf := Eigen.Vec3 1 0 0;
     crocoddyl.WrenchCone.get_box := unbounded |}.


(** The support region the constructor builds from [flat_cone]. *)
Definition flat_copy : crocoddyl.State float :=
  crocoddyl.fresh
    {| crocoddyl.A_ := Eigen.Zero46;
       crocoddyl.ub_ := Eigen.Zero4;
       crocoddyl.lb_ := Eigen.Zero4;
       crocoddyl.R_ := Eigen.Identity;
       crocoddyl.nsurf_ := Eigen.Vec3 1 0 0;
       crocoddyl.box_ := unbounded |}.

End Double.

(** * Properties *)

Import Eigen crocoddyl Double.

(** ** For every [Scalar] *)

Section Generic.
Context {Scalar : Type} {traits : ScalarTraits Scalar}.
Variable q : Vector3s Scalar -> Vector3s Scalar -> Matrix3s Scalar.

(** [update] reads [R_] and [box_] only and writes [A_], [ub_] and
    [lb_] only. *)
Lemma update_frame (s : State Scalar) :
  get_R (run update s) = get_R s /\
  get_nsurf (run update s) = get_nsurf s /\
  get_box (run update s) = get_box s /\
  cerr (run update s) = cerr s.
Proof. destruct s as [c out]; repeat split. Qed.

(** What [update] derives does not depend on the matrix and bounds
    it finds. *)
Lemma update_derived (s : State Scalar) : Derived (run update s).
Proof. destruct s as [c out]; vm_compute; repeat split. Qed.

(** So the body of the deriving constructors leaves the matrix and
    bounds derived. *)
Lemma constructor_body_derived (s : State Scalar) :
  Derived (run constructor_body s).
Proof. destruct s as [c out]; vm_compute; repeat split. Qed.

(** The three constructors that end in [update()] write nothing to
    [std::cerr]. *)
Lemma constructors_silent (raw : Indeterminate Scalar)
    (R : Matrix3s Scalar) (n : Vector3s Scalar) (box : Vector2s Scalar) :
  cerr (CoPSupportTpl_default raw) = [] /\
  cerr (CoPSupportTpl_R_box raw R box) = [] /\
  cerr (CoPSupportTpl_nsurf_box q raw n box) = [].
Proof. repeat split. Qed.

(** [set_nsurf], by the outcome of the unit test on its argument. *)
Lemma set_nsurf_run (n : Vector3s Scalar) (s : State Scalar) :
  run (set_nsurf q n) s =
  let n' := if isUnitary n then n else vdiv n (norm n) in
  {| this := {| A_ := A_ (this s); ub_ := ub_ (this s); lb_ := lb_ (this s);
                R_ := q n' UnitZ; nsurf_ := n'; box_ := box_ (this s) |};
     cerr := if isUnitary n then cerr s else cerr s ++ [warn_nsurf] |}.
Proof.
  destruct s as [c out]. unfold set_nsurf, run, bind, when; simpl.
  destruct (isUnitary n); reflexivity.
Qed.

(** [set_box], by the sign tests on the two components. *)
Lemma set_box_run (box : Vector2s Scalar) (s : State Scalar) :
  run (set_box box) s =
  let neg0 := Sltb (v2_0 box) Szero in
  let neg1 := Sltb (v2_1 box) Szero in
  {| this := {| A_ := A_ (this s); ub_ := ub_ (this s); lb_ := lb_ (this s);
                R_ := R_ (this s); nsurf_ := nsurf_ (this s);
                box_ := Vec2 (if neg0 then Smax else v2_0 box)
                             (if neg1 then Smax else v2_1 box) |};
     cerr := (cerr s ++ if neg0 then [warn_box] else [])
               ++ if neg1 then [warn_box] else [] |}.
Proof.
  destruct s as [c out], box as [b0 b1].
  unfold set_box, run, bind, when; simpl.
  destruct (Sltb b0 Szero); simpl;
    destruct (Sltb b1 Szero); simpl;
    rewrite ?app_nil_r; reflexivity.
Qed.

(** [set_R] is two assignments. *)
Lemma set_R_run (R : Matrix3s Scalar) (s : State Scalar) :
  run (set_R R) s =
  {| this := {| A_ := A_ (this s); ub_ := ub_ (this s); lb_ := lb_ (this s);
                R_ := R; nsurf_ := mulMv (transpose R) UnitZ;
                box_ := box_ (this s) |};
     cerr := cerr s |}.
Proof. destruct s as [c out]; reflexivity. Qed.

(** In every reachable state the bounds are the derived ones, zero
    above and [1 * -max] below: the setters do not touch them and
    [update] always writes the same.  Only the matrix can be stale. *)
Lemma reachable_bounds (s : State Scalar) :
  Reachable q s ->
  get_ub s = Zero4 /\ get_lb s = vmul4 Ones4 (Sopp Smax).
Proof.
  induction 1 as [ | | | s _ _ | s R _ IH | s n _ IH | s box _ IH ];
    try (split; reflexivity).
  - rewrite set_R_run; exact IH.
  - rewrite set_nsurf_run; exact IH.
  - rewrite set_box_run; exact IH.
Qed.

(** C1, as the code has it: no setter calls [update].  [set_R],
    [set_nsurf] and [set_box] each leave the inequality matrix and
    both bounds exactly as they were before the call.  The matrix and
    bounds are the ones derived from the current orientation and
    extent after every call of [update] and after each of the three
    constructors that call it, whatever the storage held before. *)
Theorem C1_setters_leave_matrix_and_bounds
    (s : State Scalar) (raw : Indeterminate Scalar)
    (R : Matrix3s Scalar) (n : Vector3s Scalar) (box : Vector2s Scalar) :
  (get_A (run (set_R R) s) = get_A s /\
   get_ub (run (set_R R) s) = get_ub s /\
   get_lb (run (set_R R) s) = get_lb s) /\
  (get_A (run (set_nsurf q n) s) = get_A s /\
   get_ub (run (set_nsurf q n) s) = get_ub s /\
   get_lb (run (set_nsurf q n) s) = get_lb s) /\
  (get_A (run (set_box box) s) = get_A s /\
   get_ub (run (set_box box) s) = get_ub s /\
   get_lb (run (set_box box) s) = get_lb s) /\
  Derived (run update s) /\
  Derived (CoPSupportTpl_default raw) /\
  Derived (CoPSupportTpl_R_box raw R box) /\
  Derived (CoPSupportTpl_nsurf_box q raw n box).
Proof.
  rewrite set_R_run, set_nsurf_run, set_box_run.
  do 3 (split; [repeat split|]).
  split; [apply update_derived|].
  split; [apply constructor_body_derived|].
  split; apply constructor_body_derived.
Qed.

(** C5, as the code has it: [set_R] validates nothing and cannot
    fail.  For every matrix [R], rotation or not, the call stores [R]
    as the orientation and [R.transpose() * UnitZ] as the normal; it
    leaves the extent, the matrix and the bounds as they were and
    writes nothing to [std::cerr]. *)
Theorem C5_set_R_stores_every_matrix (R : Matrix3s Scalar) (s : State Scalar) :
  get_R (run (set_R R) s) = R /\
  get_nsurf (run (set_R R) s) = mulMv (transpose R) UnitZ /\
  get_box (run (set_R R) s) = get_box s /\
  get_A (run (set_R R) s) = get_A s /\
  get_ub (run (set_R R) s) = get_ub s /\
  get_lb (run (set_R R) s) = get_lb s /\
  cerr (run (set_R R) s) = cerr s.
Proof. rewrite set_R_run; repeat split. Qed.
End Generic.






(** ** For [Scalar = double] *)

(** *** Overflow *)

Section FloatFacts.
Local Open Scope Z_scope.

(** [finite] on the specification of a float. *)
Lemma finite_spec (x : float) : finite x = SFfinite (Prim2SF x).
Proof.
  unfold finite, PrimFloat.is_nan, PrimFloat.is_infinity.
  rewrite !FloatAxioms.eqb_spec, FloatAxioms.abs_spec.
  replace (Prim2SF infinity) with (S754_infinity false)
    by (vm_compute; reflexivity).
  destruct (Prim2SF x) as [s | s | | s m e]; try (destruct s; reflexivity);
    try reflexivity.
  unfold SFeqb, SFabs, SFcompare.
  destruct s; rewrite Z.compare_refl, Pos.compare_cont_refl; reflexivity.
Qed.

(** The number of binary digits, and what it bounds. *)
Lemma digits2_pos_size (p : positive) : digits2_pos p = Pos.size p.
Proof. induction p; simpl; congruence. Qed.

Lemma digits_upper (p : positive) : Zpos p < 2 ^ Zpos (digits2_pos p).
Proof.
  rewrite digits2_pos_size.
  pose proof (Pos.size_gt p) as H.
  apply Pos2Z.pos_lt_pos in H. rewrite Pos2Z.inj_pow in H. exact H.
Qed.

Lemma digits_lower (p : positive) : 2 ^ (Zpos (digits2_pos p) - 1) <= Zpos p.
Proof.
  rewrite digits2_pos_size.
  pose proof (Pos.size_le p) as H.
  apply Pos2Z.pos_le_pos in H. rewrite Pos2Z.inj_pow in H.
  assert (E : 2 ^ Zpos (Pos.size p) = 2 * 2 ^ (Zpos (Pos.size p) - 1)).
  { rewrite <- Z.pow_succ_r by lia. f_equal. lia. }
  rewrite (Pos2Z.inj_xO p) in H. rewrite E in H. lia.
Qed.

Lemma digits_le (p : positive) (k : Z) :
  0 <= k -> Zpos p < 2 ^ k -> Zpos (digits2_pos p) <= k.
Proof.
  intros Hk Hp.
  destruct (Z_le_gt_dec (Zpos (digits2_pos p)) k) as [H | H]; [exact H|].
  exfalso. pose proof (digits_lower p) as Hl.
  assert (2 ^ k <= 2 ^ (Zpos (digits2_pos p) - 1))
    by (apply Z.pow_le_mono_r; lia).
  lia.
Qed.

Lemma Zdigits2_le (m k : Z) : 0 <= m -> 0 <= k -> m < 2 ^ k -> Zdigits2 m <= k.
Proof.
  intros Hm Hk H. destruct m as [ | p | p]; simpl; [lia | | lia].
  apply digits_le; assumption.
Qed.

Lemma Zdigits2_nonneg (m : Z) : 0 <= Zdigits2 m.
Proof. destruct m; simpl; lia. Qed.

(** Shifting a mantissa right halves it. *)
Lemma shr_1_spec (mrs : shr_record) :
  0 <= shr_m mrs -> shr_m (shr_1 mrs) = shr_m mrs / 2.
Proof.
  destruct mrs as [m r s]; simpl. intro Hm.
  destruct m as [ | [p | p | ] | p]; simpl; try reflexivity; try lia.
  - rewrite (Pos2Z.inj_xI p). apply Z.div_unique with (r := 1); lia.
  - rewrite (Pos2Z.inj_xO p). apply Z.div_unique with (r := 0); lia.
Qed.

Lemma iter_shr_1_spec (p : positive) (mrs : shr_record) :
  0 <= shr_m mrs ->
  shr_m (SpecFloat.iter_pos shr_1 p mrs) = shr_m mrs / 2 ^ Zpos p.
Proof.
  revert mrs. induction p as [p IH | p IH | ]; intros mrs Hm;
    cbn [SpecFloat.iter_pos].
  - assert (H1 : 0 <= shr_m (shr_1 mrs))
      by (rewrite shr_1_spec by exact Hm; apply Z.div_pos; lia).
    assert (H2 : 0 <= shr_m (SpecFloat.iter_pos shr_1 p (shr_1 mrs)))
      by (rewrite IH by exact H1; apply Z.div_pos; [exact H1 | lia]).
    rewrite IH by exact H2. rewrite IH by exact H1.
    rewrite shr_1_spec by exact Hm.
    rewrite !Z.div_div by lia.
    f_equal. rewrite (Pos2Z.inj_xI p).
    replace (2 * Zpos p + 1) with (1 + Zpos p + Zpos p) by lia.
    rewrite !Z.pow_add_r by lia. lia.
  - assert (H2 : 0 <= shr_m (SpecFloat.iter_pos shr_1 p mrs))
      by (rewrite IH by exact Hm; apply Z.div_pos; [exact Hm | lia]).
    rewrite IH by exact H2. rewrite IH by exact Hm.
    rewrite !Z.div_div by lia.
    f_equal. rewrite (Pos2Z.inj_xO p).
    replace (2 * Zpos p) with (Zpos p + Zpos p) by lia.
    rewrite !Z.pow_add_r by lia. lia.
  - rewrite shr_1_spec by exact Hm. reflexivity.
Qed.

Lemma shr_spec (mrs : shr_record) (e n : Z) :
  0 <= shr_m mrs ->
  (n <= 0 /\ shr mrs e n = (mrs, e)) \/
  (0 < n /\ exists mrs', shr mrs e n = (mrs', e + n) /\
                         shr_m mrs' = shr_m mrs / 2 ^ n).
Proof.
  intro Hm. destruct n as [ | p | p]; simpl.
  - left; split; [lia | reflexivity].
  - right; split; [lia|]. eexists; split; [reflexivity|].
    apply iter_shr_1_spec; exact Hm.
  - left; split; [lia | reflexivity].
Qed.

(** Rounding adds at most one. *)
Lemma round_nearest_even_bounds (m : Z) (l : location) :
  m <= round_nearest_even m l <= m + 1.
Proof.
  destruct l as [ | [ | | ]]; simpl; try lia.
  destruct (Z.even m); lia.
Qed.

(** Rounding a product whose digits and exponent stay below those of
    [DBL_MAX] does not overflow. *)
Lemma binary_round_aux_finite (sx : bool) (M E : Z) :
  0 < M -> E <= 970 -> Zdigits2 M + E <= 1023 ->
  SFfinite (binary_round_aux prec emax sx M E loc_Exact) = true.
Proof.
  intros HM HE Hd.
  unfold binary_round_aux, shr_fexp.
  assert (Hfexp : forall z, fexp prec emax z = Z.max (z - 53) (-1074))
    by (intro z; reflexivity).
  rewrite !Hfexp.
  set (d := Zdigits2 M) in *.
  assert (HMd : M < 2 ^ d).
  { destruct M as [ | p | p]; try lia. apply digits_upper. }
  assert (Hd0 : 0 <= d) by apply Zdigits2_nonneg.
  set (n1 := Z.max (d + E - 53) (-1074) - E).
  assert (Hpre : 0 <= shr_m (shr_record_of_loc M loc_Exact)) by (simpl; lia).
  destruct (shr_spec (shr_record_of_loc M loc_Exact) E n1 Hpre) as
      [[Hn1 H1] | [Hn1 [mrs' [H1 Hm1]]]];
    rewrite H1.
  - (* no shift *)
    simpl shr_m at 1. simpl loc_of_shr_record. simpl round_nearest_even.
    rewrite Hfexp. fold d. fold n1.
    rewrite H1. simpl shr_m.
    destruct M as [ | p | p]; try lia.
    replace (Z.leb E (emax - prec)) with true
      by (symmetry; apply Z.leb_le; change (emax - prec) with 971; lia).
    reflexivity.
  - (* a shift by n1 *)
    simpl shr_m in Hm1.
    set (m1 := shr_m mrs') in *.
    assert (Hm1pos : 0 <= m1) by (rewrite Hm1; apply Z.div_pos; lia).
    assert (Hm1lt : m1 < 2 ^ 53).
    { rewrite Hm1. apply Z.div_lt_upper_bound; [lia|].
      rewrite <- Z.pow_add_r by lia.
      apply Z.lt_le_trans with (1 := HMd).
      apply Z.pow_le_mono_r; lia. }
    set (m2 := round_nearest_even m1 (loc_of_shr_record mrs')).
    pose proof (round_nearest_even_bounds m1 (loc_of_shr_record mrs')) as Hm2.
    fold m2 in Hm2.
    assert (Hdm2 : Zdigits2 m2 <= 54).
    { apply Zdigits2_le; [lia | lia |].
      change (2 ^ 54) with (2 * 2 ^ 53). lia. }
    pose proof (Zdigits2_nonneg m2) as Hdm2'.
    set (e1 := E + n1) in *.
    assert (He1 : -1074 <= e1 <= 970) by (unfold e1, n1; lia).
    set (n2 := Z.max (Zdigits2 m2 + e1 - 53) (-1074) - e1).
    assert (Hn2 : n2 <= 1) by (unfold n2; lia).
    assert (Hpre2 : 0 <= shr_m (shr_record_of_loc m2 loc_Exact))
      by (simpl; lia).
    rewrite Hfexp. fold n2.
    destruct (shr_spec (shr_record_of_loc m2 loc_Exact) e1 n2 Hpre2) as
        [[_ H2] | [Hn2' [mrs'' [H2 Hm2']]]];
      rewrite H2.
    + simpl shr_m.
      destruct m2 as [ | p | p]; try lia; [reflexivity|].
      replace (Z.leb e1 (emax - prec)) with true
        by (symmetry; apply Z.leb_le; change (emax - prec) with 971; lia).
      reflexivity.
    + assert (n2 = 1) by lia.
      simpl shr_m in Hm2'.
      assert (0 <= shr_m mrs'') by (rewrite Hm2'; apply Z.div_pos; lia).
      destruct (shr_m mrs'') as [ | p | p]; try lia; [reflexivity|].
      replace (Z.leb (e1 + n2) (emax - prec)) with true
        by (symmetry; apply Z.leb_le; change (emax - prec) with 971; lia).
      reflexivity.
Qed.

(** At the top exponent the product does not overflow either, when
    rounding cannot carry into a further digit. *)
Lemma binary_round_aux_finite_top (sx : bool) (M E : Z) :
  0 < M -> E <= 970 -> Zdigits2 M + E = 1024 ->
  M / 2 ^ (971 - E) + 1 < 2 ^ 53 ->
  SFfinite (binary_round_aux prec emax sx M E loc_Exact) = true.
Proof.
  intros HM HE Hd Hq.
  unfold binary_round_aux, shr_fexp.
  assert (Hfexp : forall z, fexp prec emax z = Z.max (z - 53) (-1074))
    by (intro z; reflexivity).
  rewrite !Hfexp.
  set (n1 := Z.max (Zdigits2 M + E - 53) (-1074) - E).
  assert (Hn1 : n1 = 971 - E) by (unfold n1; lia).
  assert (Hpre : 0 <= shr_m (shr_record_of_loc M loc_Exact)) by (simpl; lia).
  destruct (shr_spec (shr_record_of_loc M loc_Exact) E n1 Hpre) as
      [[Hn H1] | [_ [mrs' [H1 Hm1]]]]; [lia|].
  rewrite H1. simpl shr_m in Hm1. rewrite Hn1 in Hm1.
  set (m1 := shr_m mrs') in *.
  assert (Hm1pos : 0 <= m1) by (rewrite Hm1; apply Z.div_pos; lia).
  set (m2 := round_nearest_even m1 (loc_of_shr_record mrs')).
  pose proof (round_nearest_even_bounds m1 (loc_of_shr_record mrs')) as Hm2.
  fold m2 in Hm2.
  assert (Hdm2 : Zdigits2 m2 <= 53) by (apply Zdigits2_le; lia).
  pose proof (Zdigits2_nonneg m2) as Hdm2'.
  rewrite Hfexp.
  set (n2 := Z.max (Zdigits2 m2 + (E + n1) - 53) (-1074) - (E + n1)).
  assert (Hpre2 : 0 <= shr_m (shr_record_of_loc m2 loc_Exact))
    by (simpl; lia).
  destruct (shr_spec (shr_record_of_loc m2 loc_Exact) (E + n1) n2 Hpre2) as
      [[_ H2] | [Hn2 _]]; [ | unfold n2 in Hn2; lia].
  rewrite H2. simpl shr_m.
  destruct m2 as [ | p | p]; try lia; [reflexivity|].
  replace (Z.leb (E + n1) (emax - prec)) with true
    by (symmetry; apply Z.leb_le; change (emax - prec) with 971; lia).
  reflexivity.
Qed.

(** A coefficient of magnitude at most two is zero, or finite with an
    exponent below that of one, or in [1, 2), or two itself. *)
Lemma within_two_spec (x : float) :
  within_two x = true ->
  match Prim2SF x with
  | S754_zero _ => True
  | S754_finite _ m e =>
      Zpos (digits2_pos m) <= 53 /\
      (e < -52 \/ (e = -52 /\ Zpos (digits2_pos m) = 53) \/
       (e = -51 /\ m = 4503599627370496%positive))
  | _ => False
  end.
Proof.
  unfold within_two. rewrite FloatAxioms.leb_spec, FloatAxioms.abs_spec.
  replace (Prim2SF 2) with (S754_finite false 4503599627370496 (-51))
    by (vm_compute; reflexivity).
  pose proof (Prim2SF_valid x) as Hv.
  destruct (Prim2SF x) as [s | s | | s m e]; simpl; intro H;
    try exact I; try discriminate.
  unfold SFleb, SFcompare in H.
  unfold SpecFloat.valid_binary, bounded, canonical_mantissa in Hv.
  apply andb_prop in Hv. destruct Hv as [Hc _].
  apply Z.eqb_eq in Hc.
  assert (Hfexp : forall z, fexp prec emax z = Z.max (z - 53) (-1074))
    by (intro z; reflexivity).
  rewrite Hfexp in Hc.
  split; [lia|].
  destruct (Z.compare_spec e (-51)) as [He | He | He]; try discriminate.
  - right; right. split; [exact He|].
    assert (Hd : Zpos (digits2_pos m) = 53) by lia.
    pose proof (digits_lower m) as Hl. rewrite Hd in Hl.
    change (2 ^ (53 - 1)) with 4503599627370496 in Hl.
    destruct (Pos.compare_cont Eq m 4503599627370496) eqn:Hm; try discriminate.
    + apply Pos.compare_eq in Hm. exact Hm.
    + pose proof (proj1 (Pos.compare_lt_iff _ _) Hm) as Hlt.
      apply Pos2Z.pos_lt_pos in Hlt. clear - Hlt Hl. exfalso. lia.
  - destruct (Z.eq_dec e (-52)) as [E52 | E52].
    + right; left. split; [exact E52 | lia].
    + left. lia.
Qed.

(** Such a coefficient is finite, and so is its opposite. *)
Lemma within_two_finite (x : float) :
  within_two x = true -> finite x = true /\ finite (- x)%float = true.
Proof.
  intro H. apply within_two_spec in H.
  rewrite !finite_spec, FloatAxioms.opp_spec.
  destruct (Prim2SF x); try contradiction; split; reflexivity.
Qed.

(** Half of [DBL_MAX], negated, times a coefficient of magnitude at
    most two does not overflow. *)
Lemma half_max_times_within_two (x : float) :
  within_two x = true ->
  finite ((- (Smax / 2)) * x)%float = true.
Proof.
  intro H. apply within_two_spec in H.
  rewrite finite_spec, mul_spec.
  replace (Prim2SF (- (Smax / 2))%float)
    with (S754_finite true 9007199254740991 970)
    by (vm_compute; reflexivity).
  destruct (Prim2SF x) as [s | s | | s m e]; try contradiction;
    [reflexivity|].
  destruct H as [Hd H].
  assert (Hprod : Zpos (digits2_pos (9007199254740991 * m))
                  <= 53 + Zpos (digits2_pos m)).
  { apply digits_le; [lia|].
    rewrite Pos2Z.inj_mul, Z.pow_add_r by lia.
    pose proof (digits_upper m) as Hm.
    change (2 ^ 53) with 9007199254740992.
    nia. }
  destruct H as [He | [[He Hd53] | [He Hm]]].
  - unfold SF64mul, SFmul. apply binary_round_aux_finite; [lia | lia |].
    cbn [Zdigits2]. lia.
  - unfold SF64mul, SFmul. subst e.
    destruct (Z_le_gt_dec (Zpos (digits2_pos (9007199254740991 * m))) 105)
      as [H105 | H105].
    + apply binary_round_aux_finite; [lia | lia |]. cbn [Zdigits2]. lia.
    + apply binary_round_aux_finite_top; [lia | lia | cbn [Zdigits2]; lia |].
      change (971 - (970 + -52)) with 53.
      pose proof (digits_upper m) as Hm. rewrite Hd53 in Hm.
      change (2 ^ 53) with 9007199254740992 in *.
      replace (Zpos (9007199254740991 * m) / 9007199254740992)
        with (Zpos m - 1); [lia|].
      apply Z.div_unique with (r := 9007199254740992 - Zpos m);
        [lia | rewrite Pos2Z.inj_mul; lia].
  - subst e m. destruct s; vm_compute; reflexivity.
Qed.
End FloatFacts.

Local Open Scope float_scope.

(** C1, as stated, fails: after [set_box] on a default-constructed
    object the extent is (0.2, 0.1) but the matrix is still the one
    derived from the unbounded extent; after [set_R] with a quarter
    turn the matrix is still the one of the identity. *)
Lemma C1_set_box_leaves_stale_matrix :
  get_box (run (set_box (Vec2 0.2 0.1)) (CoPSupportTpl_default nan_storage)) = Vec2 0.2 0.1 /\
  v6_2 (m46_row0 (get_A (run (set_box (Vec2 0.2 0.1)) (CoPSupportTpl_default nan_storage))))
    = - (Smax / 2) /\
  v6_2 (m46_row0 (get_A (run update
                           (run (set_box (Vec2 0.2 0.1)) (CoPSupportTpl_default nan_storage)))))
    = -0.05 /\
  ~ Derived (run (set_box (Vec2 0.2 0.1)) (CoPSupportTpl_default nan_storage)) /\
  ~ Derived (run (set_R quarter_turn_x) (CoPSupportTpl_default nan_storage)).
Proof.
  repeat split.
  - intros [HA _].
    apply (f_equal (fun A => PrimFloat.eqb (v6_2 (m46_row0 A)) (-0.05))) in HA.
    vm_compute in HA. discriminate.
  - intros [HA _].
    apply (f_equal (fun A => PrimFloat.eqb (v6_4 (m46_row2 A)) 1)) in HA.
    vm_compute in HA. discriminate.
Qed.

(** C2, as stated, fails.  With the extent unbounded in both
    directions the normal-force coefficient of row 0 is [-max/2], not
    zero, and the finite wrench (0,0,0, 1,0,0) does not meet the
    rows: its product with row 0 is 1, above the upper bound 0.  And
    the matrix can hold an infinity: for four times the identity,
    which [set_R] and the constructor accept, [-max/2 * 4]
    overflows. *)
Lemma C2_unbounded_extent_rejects_a_finite_wrench :
  get_box (CoPSupportTpl_default nan_storage) = unbounded /\
  finite6 unit_moment_x = true /\
  v4_0 (mulAw (get_A (CoPSupportTpl_default nan_storage)) unit_moment_x) = 1 /\
  satisfies (CoPSupportTpl_default nan_storage) unit_moment_x = false /\
  v6_2 (m46_row0 (get_A (CoPSupportTpl_default nan_storage))) = - (Smax / 2) /\
  finite46 (get_A (CoPSupportTpl_R_box nan_storage fourfold_identity unbounded))
    = false.
Proof. repeat split. Qed.

(** The rows for the unbounded extent are finite when the
    coefficients of the orientation have magnitude at most two. *)
Lemma unbounded_rows_finite (R : Matrix3s float) :
  entries_within_two R = true ->
  finite46 (derived_matrix R unbounded) = true.
Proof.
  destruct R as [[a b c] [d e f] [g h i]].
  unfold entries_within_two, within_two3;
    cbn [m3_row0 m3_row1 m3_row2 v3_0 v3_1 v3_2].
  intro H.
  repeat match goal with
         | H : _ && _ = true |- _ => apply andb_prop in H; destruct H
         end.
  repeat match goal with
         | H : within_two ?x = true |- _ =>
             pose proof (half_max_times_within_two H);
             destruct (within_two_finite H);
             clear H
         end.
  unfold finite46, finite6, derived_matrix, comma, vscale, vopp, col0, col1, col2.
  cbn [m46_row0 m46_row1 m46_row2 m46_row3 v6_0 v6_1 v6_2 v6_3 v6_4 v6_5
       m3_row0 m3_row1 m3_row2 v3_0 v3_1 v3_2 v2_0 v2_1 unbounded].
  change (@Smul float double) with PrimFloat.mul.
  change (@Sopp float double) with PrimFloat.opp.
  change (@Sdiv float double) with PrimFloat.div.
  change (@Stwo float double) with 2%float.
  repeat match goal with
         | H : finite _ = true |- _ => try rewrite H; clear H
         end.
  reflexivity.
Qed.

(** C2, as the code has it: the derivation has no case for the
    sentinel.  With extent (max, max), any orientation [R] and
    whatever the storage held, the half extents are [max/2], which is
    finite; rows 0 and 1 are [-(max/2) * R.col(2)] followed by plus
    and minus [R.col(0)], rows 2 and 3 the same with [R.col(1)]; the
    upper bounds are 0 and the lower bounds [-max].  For every
    orientation whose nine coefficients have magnitude at most two,
    so for every rotation, all 24 entries are finite. *)
Theorem C2_unbounded_extent_derivation
    (raw : Indeterminate float) (R : Matrix3s float) :
  get_A (CoPSupportTpl_R_box raw R unbounded) =
    Mat46 (comma (vscale (- (Smax / 2)) (col2 R)) (col0 R))
          (comma (vscale (- (Smax / 2)) (col2 R)) (vopp (col0 R)))
          (comma (vscale (- (Smax / 2)) (col2 R)) (col1 R))
          (comma (vscale (- (Smax / 2)) (col2 R)) (vopp (col1 R))) /\
  get_ub (CoPSupportTpl_R_box raw R unbounded) = Vec4 0 0 0 0 /\
  get_lb (CoPSupportTpl_R_box raw R unbounded) =
    Vec4 (- Smax) (- Smax) (- Smax) (- Smax) /\
  finite (Smax / 2) = true /\
  (entries_within_two R = true ->
   finite46 (get_A (CoPSupportTpl_R_box raw R unbounded)) = true).
Proof.
  split; [reflexivity|]. split; [reflexivity|]. split; [reflexivity|].
  split; [reflexivity|].
  intro H. apply (unbounded_rows_finite R H).
Qed.

(** C2 at the quarter turn about the first axis. *)
Lemma C2_unbounded_extent_derivation_witness :
  entries_within_two quarter_turn_x = true /\
  finite46 (get_A (CoPSupportTpl_R_box nan_storage quarter_turn_x unbounded))
    = true.
Proof.
  split; [reflexivity|].
  exact (proj2 (proj2 (proj2 (proj2
           (C2_unbounded_extent_derivation nan_storage quarter_turn_x))))
           eq_refl).
Defined.

(** The constructor from an orientation stores the extent it is given,
    for every [Scalar]. *)
Lemma R_box_constructor_stores_box
    (Scalar : Type) (traits : ScalarTraits Scalar)
    (raw : Indeterminate Scalar)
    (R : Matrix3s Scalar) (box : Vector2s Scalar) :
  get_box (CoPSupportTpl_R_box raw R box) = box /\
  get_R (CoPSupportTpl_R_box raw R box) = R /\
  get_nsurf (CoPSupportTpl_R_box raw R box) = mulMv (transpose R) UnitZ.
Proof. repeat split. Qed.

(** C3: the code run at extent (-1, 2).  The constructor stores
    (-1, 2) and writes nothing to [std::cerr]; [set_box] with the same
    extent stores (max, 2) and writes one warning line. *)
Theorem C3_constructor_keeps_negative_extent
    (raw : Indeterminate float) (s : State float) :
  get_box (CoPSupportTpl_R_box raw Identity (Vec2 (-1) 2)) = Vec2 (-1) 2 /\
  cerr (CoPSupportTpl_R_box raw Identity (Vec2 (-1) 2)) = [] /\
  get_box (run (set_box (Vec2 (-1) 2)) s) = Vec2 Smax 2 /\
  cerr (run (set_box (Vec2 (-1) 2)) s) = cerr s ++ [warn_box].
Proof. rewrite set_box_run; simpl; rewrite app_nil_r; repeat split. Qed.

(** C4: the code run at normal (0, 0, 2).  The constructor stores
    (0, 0, 2) and writes nothing to [std::cerr]; [set_nsurf] with the
    same vector stores (0, 0, 1), writes one warning line and takes the
    orientation from the normalised vector.  In both, the orientation
    is what Eigen's [FromTwoVectors] gives for the stored normal and
    [UnitZ]. *)
Theorem C4_constructor_keeps_non_unit_normal
    (q : Vector3s float -> Vector3s float -> Matrix3s float)
    (raw : Indeterminate float) (box : Vector2s float) (s : State float) :
  get_nsurf (CoPSupportTpl_nsurf_box q raw (Vec3 0 0 2) box) = Vec3 0 0 2 /\
  cerr (CoPSupportTpl_nsurf_box q raw (Vec3 0 0 2) box) = [] /\
  get_R (CoPSupportTpl_nsurf_box q raw (Vec3 0 0 2) box) = q (Vec3 0 0 2) UnitZ /\
  get_nsurf (run (set_nsurf q (Vec3 0 0 2)) s) = Vec3 0 0 1 /\
  cerr (run (set_nsurf q (Vec3 0 0 2)) s) = cerr s ++ [warn_nsurf] /\
  get_R (run (set_nsurf q (Vec3 0 0 2)) s) = q (Vec3 0 0 1) UnitZ.
Proof. rewrite set_nsurf_run; repeat split. Qed.

(** C5, as stated, fails: the zero matrix is no rotation, yet [set_R]
    stores it, with the zero vector as the normal, and raises nothing:
    the object is not the one before the call. *)
Lemma C5_set_R_stores_the_zero_matrix :
  is_proper_rotation zero_matrix = false /\
  get_R (run (set_R zero_matrix) (CoPSupportTpl_default nan_storage)) = zero_matrix /\
  get_nsurf (run (set_R zero_matrix) (CoPSupportTpl_default nan_storage)) = Vec3 0 0 0 /\
  run (set_R zero_matrix) (CoPSupportTpl_default nan_storage) <> (CoPSupportTpl_default nan_storage).
Proof.
  repeat split. intro H.
  apply (f_equal (fun st => PrimFloat.eqb (v3_2 (get_nsurf st)) 1)) in H.
  vm_compute in H. discriminate.
Qed.

(** C6, as stated, fails: the matrix of a default-constructed object
    is not the zero matrix; its entry (0, 3) is 1 and its entry (0, 2)
    is [-max/2].  And the constraint is not always satisfied: the
    finite wrench (0,0,0, 1,0,0) does not meet row 0. *)
Lemma C6_default_matrix_is_not_zero :
  meqb46 (get_A (CoPSupportTpl_default nan_storage)) Zero46 = false /\
  get_A (CoPSupportTpl_default nan_storage) <> Zero46 /\
  v6_3 (m46_row0 (get_A (CoPSupportTpl_default nan_storage))) = 1 /\
  v6_2 (m46_row0 (get_A (CoPSupportTpl_default nan_storage))) = - (Smax / 2) /\
  finite6 unit_moment_x = true /\
  satisfies (CoPSupportTpl_default nan_storage) unit_moment_x = false.
Proof.
  split; [reflexivity|]. split.
  - intro H. apply (f_equal (fun A => meqb46 A Zero46)) in H.
    vm_compute in H. discriminate.
  - repeat split.
Qed.

(** C6, as the code has it: whatever the storage held, the default
    constructor gives the identity orientation, the normal [UnitZ],
    the extent (max, max), upper bounds 0, lower bounds [-max], and
    the matrix
    [[0,0,-max/2, 1,0,0], [0,0,-max/2, -1,0,0],
     [0,0,-max/2, 0,1,0], [0,0,-max/2, 0,-1,0]]
    (equal coefficient by coefficient under [==]); nothing is written
    to [std::cerr].  The matrix is not zero, and the constraint is
    not always satisfied: the wrench (0,0,0, 1,0,0) does not meet
    it. *)
Theorem C6_default_constructor (raw : Indeterminate float) :
  get_R (CoPSupportTpl_default raw) = Identity /\
  get_nsurf (CoPSupportTpl_default raw) = UnitZ /\
  get_box (CoPSupportTpl_default raw) = Vec2 Smax Smax /\
  meqb46 (get_A (CoPSupportTpl_default raw))
         (Mat46 (Vec6 0 0 (- (Smax / 2)) 1 0 0)
                (Vec6 0 0 (- (Smax / 2)) (-1) 0 0)
                (Vec6 0 0 (- (Smax / 2)) 0 1 0)
                (Vec6 0 0 (- (Smax / 2)) 0 (-1) 0)) = true /\
  get_ub (CoPSupportTpl_default raw) = Vec4 0 0 0 0 /\
  get_lb (CoPSupportTpl_default raw)
    = Vec4 (- Smax) (- Smax) (- Smax) (- Smax) /\
  cerr (CoPSupportTpl_default raw) = [] /\
  meqb46 (get_A (CoPSupportTpl_default raw)) Zero46 = false /\
  satisfies (CoPSupportTpl_default raw) unit_moment_x = false.
Proof. repeat split. Qed.

(** Where the normal is [R.transpose() * UnitZ] by construction, and
    where it is the vector given: after the constructor from an
    orientation and after [set_R] the first, after the constructor from
    a normal the second, for every [Scalar]. *)
Lemma normal_after_construction
    (Scalar : Type) (traits : ScalarTraits Scalar)
    (q : Vector3s Scalar -> Vector3s Scalar -> Matrix3s Scalar)
    (raw : Indeterminate Scalar)
    (R : Matrix3s Scalar) (n : Vector3s Scalar) (box : Vector2s Scalar)
    (s : State Scalar) :
  get_nsurf (CoPSupportTpl_R_box raw R box)
    = mulMv (transpose (get_R (CoPSupportTpl_R_box raw R box))) UnitZ /\
  get_nsurf (run (set_R R) s)
    = mulMv (transpose (get_R (run (set_R R) s))) UnitZ /\
  get_nsurf (CoPSupportTpl_nsurf_box q raw n box) = n /\
  get_R (CoPSupportTpl_nsurf_box q raw n box) = q n UnitZ.
Proof. rewrite set_R_run; repeat split. Qed.

(** [R.transpose() * UnitZ] is the third row of [R]; for a quarter
    turn about the first axis it is the opposite of the third column,
    which is what [update] multiplies the half extents with. *)
Lemma Rt_UnitZ_is_third_row :
  mulMv (transpose quarter_turn_x) UnitZ = Vec3 0 1 0 /\
  col2 quarter_turn_x = Vec3 0 (-1) 0.
Proof. split; reflexivity. Qed.

(** Eigen's orientation for the normal (0, 0, 2), whatever axis the
    decomposition would give for opposite directions: the identity,
    which takes [UnitZ] to (0, 0, 1).  It is also what [set_nsurf]
    stores for that normal. *)
Lemma orientation_for_normal_002
    (svd_axis : Vector3s float -> Vector3s float -> Vector3s float)
    (raw : Indeterminate float) (box : Vector2s float) (s : State float) :
  rotation_between svd_axis (Vec3 0 0 2) UnitZ = Identity /\
  get_R (CoPSupportTpl_nsurf_box (rotation_between svd_axis) raw
                                 (Vec3 0 0 2) box)
    = Identity /\
  get_R (run (set_nsurf (rotation_between svd_axis) (Vec3 0 0 2)) s) = Identity /\
  mulMv Identity UnitZ = Vec3 0 0 1 /\
  mulMv (transpose Identity) UnitZ = Vec3 0 0 1.
Proof. rewrite set_nsurf_run; repeat split. Qed.

(** C7: the code run at normal (0, 0, 2).  The constructor from a
    normal reaches a state whose stored normal is (0, 0, 2).  Whenever
    the orientation Eigen returns for it has a third row of unit
    length, as every rotation has, the stored normal is not
    [R.transpose() * UnitZ]. *)
Theorem C7_non_unit_normal_is_not_Rt_UnitZ
    (q : Vector3s float -> Vector3s float -> Matrix3s float)
    (raw : Indeterminate float) (box : Vector2s float) :
  isUnitary (mulMv (transpose (q (Vec3 0 0 2) UnitZ)) UnitZ) = true ->
  Reachable q (CoPSupportTpl_nsurf_box q raw (Vec3 0 0 2) box) /\
  get_nsurf (CoPSupportTpl_nsurf_box q raw (Vec3 0 0 2) box) = Vec3 0 0 2 /\
  get_nsurf (CoPSupportTpl_nsurf_box q raw (Vec3 0 0 2) box)
    <> mulMv (transpose (get_R (CoPSupportTpl_nsurf_box q raw (Vec3 0 0 2) box)))
             UnitZ.
Proof.
  intro Hunit. split; [apply reach_nsurf_box|]. split; [reflexivity|].
  change (Vec3 0 0 2 <> mulMv (transpose (q (Vec3 0 0 2) UnitZ)) UnitZ).
  intro E. rewrite <- E in Hunit. vm_compute in Hunit. discriminate.
Qed.

(** C7 with Eigen's orientation for the directions (0, 0, 2) and
    [UnitZ], which is the identity whatever axis Eigen would take for
    opposite directions. *)
Lemma C7_non_unit_normal_witness :
  (forall svd_axis,
     isUnitary (mulMv (transpose (rotation_between svd_axis (Vec3 0 0 2) UnitZ))
                      UnitZ) = true) /\
  (forall svd_axis,
     Reachable (rotation_between svd_axis)
       (CoPSupportTpl_nsurf_box (rotation_between svd_axis) nan_storage
          (Vec3 0 0 2) (Vec2 1 1)) /\
     get_nsurf (CoPSupportTpl_nsurf_box (rotation_between svd_axis) nan_storage
                  (Vec3 0 0 2) (Vec2 1 1))
       = Vec3 0 0 2 /\
     get_nsurf (CoPSupportTpl_nsurf_box (rotation_between svd_axis) nan_storage
                  (Vec3 0 0 2) (Vec2 1 1))
       <> mulMv (transpose (get_R (CoPSupportTpl_nsurf_box
                                     (rotation_between svd_axis) nan_storage
                                     (Vec3 0 0 2) (Vec2 1 1)))) UnitZ).
Proof.
  split; [intro svd_axis; reflexivity|].
  exact (fun svd_axis =>
           C7_non_unit_normal_is_not_Rt_UnitZ (rotation_between svd_axis)
             nan_storage (Vec2 1 1) eq_refl).
Defined.

(** C8: with the identity orientation and extent (0.2, 0.1) the rows
    are [0,0,-0.05, 1,0,0], [0,0,-0.05, -1,0,0], [0,0,-0.1, 0,1,0] and
    [0,0,-0.1, 0,-1,0], coefficient by coefficient under [==]; the four
    upper bounds are 0 and the four lower bounds are [-max], whatever
    the storage held before the constructor ran.  The second conjunct
    gives the same matrix with the sign each zero carries. *)
Theorem C8_identity_with_box_02_01 (raw : Indeterminate float) :
  meqb46 (get_A (CoPSupportTpl_R_box raw Identity (Vec2 0.2 0.1)))
         (Mat46 (Vec6 0 0 (-0.05) 1 0 0)
                (Vec6 0 0 (-0.05) (-1) 0 0)
                (Vec6 0 0 (-0.1) 0 1 0)
                (Vec6 0 0 (-0.1) 0 (-1) 0)) = true /\
  get_A (CoPSupportTpl_R_box raw Identity (Vec2 0.2 0.1)) =
         Mat46 (Vec6 (-0) (-0) (-0.05) 1 0 0)
               (Vec6 (-0) (-0) (-0.05) (-1) (-0) (-0))
               (Vec6 (-0) (-0) (-0.1) 0 1 0)
               (Vec6 (-0) (-0) (-0.1) (-0) (-1) (-0)) /\
  get_ub (CoPSupportTpl_R_box raw Identity (Vec2 0.2 0.1)) = Vec4 0 0 0 0 /\
  get_lb (CoPSupportTpl_R_box raw Identity (Vec2 0.2 0.1)) =
         Vec4 (- Smax) (- Smax) (- Smax) (- Smax).
Proof. repeat split. Qed.

(** C10, as stated, fails: (1.0000000000001, 0, 0) is not zero and
    passes Eigen's unit test, so [set_nsurf] stores it as it is.  Its
    squared norm is not 1, and it is not the vector divided by its
    norm, which is (1, 0, 0). *)
Lemma C10_set_nsurf_keeps_nearly_unit_normal :
  nonzero nearly_unit = true /\
  isUnitary nearly_unit = true /\
  PrimFloat.eqb (squaredNorm nearly_unit) 1 = false /\
  vdiv nearly_unit (norm nearly_unit) = Vec3 1 0 0 /\
  (forall q, get_nsurf (run (set_nsurf q nearly_unit) (CoPSupportTpl_default nan_storage))
             = nearly_unit) /\
  nearly_unit <> vdiv nearly_unit (norm nearly_unit).
Proof.
  repeat split. intro H.
  apply (f_equal (fun v => PrimFloat.eqb (v3_0 v) 1)) in H.
  vm_compute in H. discriminate.
Qed.

(** C10, as the code has it: [set_nsurf] stores its argument unchanged
    when the argument passes [isUnitary()] (squared norm within the
    relative tolerance [1e-12] of 1), and otherwise stores the argument
    divided coefficient by coefficient by its norm and writes the
    warning line.  Nothing guards the division: the zero vector is not
    unitary, its norm is 0, and the three stored components are NaN. *)
Theorem C10_set_nsurf_stored_normal
    (q : Vector3s float -> Vector3s float -> Matrix3s float)
    (n : Vector3s float) (s : State float) :
  get_nsurf (run (set_nsurf q n) s)
    = (if isUnitary n then n else vdiv n (norm n)) /\
  cerr (run (set_nsurf q n) s)
    = (if isUnitary n then cerr s else cerr s ++ [warn_nsurf]) /\
  isUnitary (Vec3 0 0 0) = false /\
  norm (Vec3 0 0 0) = 0 /\
  get_nsurf (run (set_nsurf q (Vec3 0 0 0)) s) = Vec3 nan nan nan.
Proof. rewrite !set_nsurf_run; repeat split. Qed.

(** [flat_cone] has the sizes of the members, and [flat_copy] is the
    object built from it: the zero matrix, not the matrix [update]
    would derive. *)
Lemma wrench_cone_copy_is_not_rederived :
  fits_members flat_cone = true /\
  CoPSupportTpl_WrenchCone flat_cone = Some flat_copy /\
  ~ Derived flat_copy.
Proof.
  split; [reflexivity|]. split; [reflexivity|].
  intros [HA _].
  apply (f_equal (fun A => PrimFloat.eqb (v6_3 (m46_row0 A)) 0)) in HA.
  vm_compute in HA. discriminate.
Qed.



(** * Further properties of the member functions *)

Section Composition.
Context {Scalar : Type} {traits : ScalarTraits Scalar}.
Variable q : Vector3s Scalar -> Vector3s Scalar -> Matrix3s Scalar.

(** [update] as one assignment. *)
Lemma update_run (s : State Scalar) :
  run update s =
  {| this := {| A_ := derived_matrix (R_ (this s)) (box_ (this s));
                ub_ := Zero4; lb_ := derived_lb;
                R_ := R_ (this s); nsurf_ := nsurf_ (this s);
                box_ := box_ (this s) |};
     cerr := cerr s |}.
Proof. destruct s as [c out]; vm_compute; reflexivity. Qed.

(** The body of the deriving constructors comes to the same. *)
Lemma constructor_body_run (s : State Scalar) :
  run constructor_body s = run update s.
Proof. destruct s as [c out]; vm_compute; reflexivity. Qed.

(** What [update] derives is mirrored row against row. *)
Lemma derived_matrix_symmetric (R : Matrix3s Scalar) (box : Vector2s Scalar) :
  box_symmetric (derived_matrix R box).
Proof. repeat split. Qed.

(** X1: [update] is idempotent, and it touches nothing but the matrix
    and the bounds: a second call changes nothing, and the
    orientation, the normal, the extent and [std::cerr] are as before
    the first. *)
Theorem X1_update_idempotent (s : State Scalar) :
  run update (run update s) = run update s /\
  get_R (run update s) = get_R s /\
  get_nsurf (run update s) = get_nsurf s /\
  get_box (run update s) = get_box s /\
  cerr (run update s) = cerr s.
Proof. rewrite !update_run; repeat split. Qed.

(** X2: the matrix and bounds [update] writes depend on the
    orientation and the extent alone.  Two objects that agree on
    those get the same matrix and bounds, whatever their normals and
    whatever matrix and bounds they held. *)
Theorem X2_update_reads_R_and_box_only (s1 s2 : State Scalar) :
  get_R s1 = get_R s2 ->
  get_box s1 = get_box s2 ->
  get_A (run update s1) = get_A (run update s2) /\
  get_ub (run update s1) = get_ub (run update s2) /\
  get_lb (run update s1) = get_lb (run update s2).
Proof.
  intros HR Hbox. rewrite !update_run. unfold get_A, get_ub, get_lb; simpl.
  unfold get_R in HR. unfold get_box in Hbox. rewrite HR, Hbox.
  repeat split.
Qed.

(** X3: after [update], for every orientation and extent the object
    holds, rotation or not, rows 0 and 1 of the matrix have the same
    force block and opposite moment blocks, and so have rows 2 and
    3. *)
Theorem X3_update_matrix_symmetric (s : State Scalar) :
  box_symmetric (get_A (run update s)).
Proof. rewrite update_run. apply derived_matrix_symmetric. Qed.

(** X4: in every state reached from a deriving constructor by calls
    of [update] and of the setters, the upper bound is zero, the lower
    bound is the derived one, and the matrix is the derivation of some
    orientation and extent, current or not; so it is mirrored row
    against row even when it is stale. *)
Theorem X4_reachable_matrix_is_a_derivation (s : State Scalar) :
  Reachable q s ->
  (exists R box, get_A s = derived_matrix R box) /\
  box_symmetric (get_A s) /\
  get_ub s = Zero4 /\
  get_lb s = derived_lb.
Proof.
  intro Hs.
  assert (H : (exists R box, get_A s = derived_matrix R box) /\
              get_ub s = Zero4 /\ get_lb s = derived_lb).
  { induction Hs as [ | R box | n box | s _ _ | s R _ IH | s n _ IH | s box _ IH ].
    - unfold CoPSupportTpl_default. rewrite constructor_body_run, update_run.
      split; [eexists; eexists; reflexivity | split; reflexivity].
    - unfold CoPSupportTpl_R_box. rewrite constructor_body_run, update_run.
      split; [eexists; eexists; reflexivity | split; reflexivity].
    - unfold CoPSupportTpl_nsurf_box. rewrite constructor_body_run, update_run.
      split; [eexists; eexists; reflexivity | split; reflexivity].
    - rewrite update_run.
      split; [eexists; eexists; reflexivity | split; reflexivity].
    - rewrite set_R_run; exact IH.
    - rewrite set_nsurf_run; exact IH.
    - rewrite set_box_run; exact IH. }
  destruct H as [[R [box HA]] [Hub Hlb]].
  split; [exists R, box; exact HA|].
  split; [rewrite HA; apply derived_matrix_symmetric|].
  split; assumption.
Qed.

(** X5: every line a reachable state has on [std::cerr] is one of the
    two warnings; the constructors and [update] write none, and the
    class writes nothing else. *)
Theorem X5_reachable_cerr_only_warnings (s : State Scalar) :
  Reachable q s -> Forall is_warning (cerr s).
Proof.
  induction 1 as [ | R box | n box | s _ IH | s R _ IH | s n _ IH | s box _ IH ].
  - constructor.
  - constructor.
  - constructor.
  - rewrite update_run; exact IH.
  - rewrite set_R_run; exact IH.
  - rewrite set_nsurf_run; simpl.
    destruct (isUnitary n); [exact IH|].
    apply Forall_app; split; [exact IH|].
    constructor; [left; reflexivity | constructor].
  - rewrite set_box_run; simpl.
    apply Forall_app; split; [apply Forall_app; split; [exact IH|]|].
    + destruct (Sltb (v2_0 box) Szero);
        [constructor; [right; reflexivity | constructor] | constructor].
    + destruct (Sltb (v2_1 box) Szero);
        [constructor; [right; reflexivity | constructor] | constructor].
Qed.
End Composition.

Section Setters.
Context {Scalar : Type} {traits : ScalarTraits Scalar}.
Variable q : Vector3s Scalar -> Vector3s Scalar -> Matrix3s Scalar.

(** A component [set_box] has passed is not negative, once [max]
    itself is not. *)
Lemma passed_component_not_negative (x : Scalar) :
  negative Smax = false ->
  negative (if Sltb x Szero then Smax else x) = false.
Proof.
  intro Hmax. destruct (Sltb x Szero) eqn:E; [exact Hmax | exact E].
Qed.

(** X6: for an extent with no negative component, [set_R], [set_box]
    and [update] in this order bring any object to the one the
    constructor from an orientation builds on any storage, and write
    nothing. *)
Theorem X6_setters_and_update_rebuild_R_box
    (raw : Indeterminate Scalar)
    (R : Matrix3s Scalar) (box : Vector2s Scalar) (s : State Scalar) :
  negative (v2_0 box) = false ->
  negative (v2_1 box) = false ->
  this (run update (run (set_box box) (run (set_R R) s)))
    = this (CoPSupportTpl_R_box raw R box) /\
  cerr (run update (run (set_box box) (run (set_R R) s))) = cerr s.
Proof.
  unfold negative. intros H0 H1.
  unfold CoPSupportTpl_R_box.
  rewrite (constructor_body_run
             (initialised raw R (mulMv (transpose R) UnitZ) box)).
  rewrite !update_run, set_box_run, set_R_run.
  destruct box as [b0 b1]; simpl in *. rewrite H0, H1; simpl.
  rewrite !app_nil_r. split; reflexivity.
Qed.

(** X7: for a normal that passes the unit test and an extent with no
    negative component, [set_nsurf], [set_box] and [update] in this
    order bring any object to the one the constructor from a normal
    builds on any storage, and write nothing. *)
Theorem X7_setters_and_update_rebuild_nsurf_box
    (raw : Indeterminate Scalar)
    (n : Vector3s Scalar) (box : Vector2s Scalar) (s : State Scalar) :
  isUnitary n = true ->
  negative (v2_0 box) = false ->
  negative (v2_1 box) = false ->
  this (run update (run (set_box box) (run (set_nsurf q n) s)))
    = this (CoPSupportTpl_nsurf_box q raw n box) /\
  cerr (run update (run (set_box box) (run (set_nsurf q n) s))) = cerr s.
Proof.
  unfold negative. intros Hn H0 H1.
  unfold CoPSupportTpl_nsurf_box.
  rewrite (constructor_body_run (initialised raw (q n UnitZ) n box)).
  rewrite !update_run, set_box_run, set_nsurf_run.
  destruct box as [b0 b1]; simpl in *. rewrite Hn, H0, H1; simpl.
  rewrite !app_nil_r. split; reflexivity.
Qed.

(** X8: once [max] is not below zero, no call of [set_box] leaves a
    component of the stored extent below zero, whatever extent it is
    given. *)
Theorem X8_set_box_leaves_no_negative_component
    (box : Vector2s Scalar) (s : State Scalar) :
  negative Smax = false ->
  negative (v2_0 (get_box (run (set_box box) s))) = false /\
  negative (v2_1 (get_box (run (set_box box) s))) = false.
Proof.
  intro Hmax. rewrite set_box_run; simpl.
  split; apply passed_component_not_negative; exact Hmax.
Qed.

(** X9: once [max] is not below zero, the extent [set_box] has stored
    passes [set_box] again as it is and in silence: giving an object
    its own extent back changes nothing, [std::cerr] included. *)
Theorem X9_set_box_accepts_stored_extent
    (box : Vector2s Scalar) (s : State Scalar) :
  negative Smax = false ->
  run (set_box (get_box (run (set_box box) s))) (run (set_box box) s)
    = run (set_box box) s.
Proof.
  intro Hmax.
  rewrite (set_box_run (get_box (run (set_box box) s))).
  rewrite set_box_run; simpl.
  pose proof (passed_component_not_negative (v2_0 box) Hmax) as H0.
  pose proof (passed_component_not_negative (v2_1 box) Hmax) as H1.
  unfold negative in H0, H1. rewrite H0, H1; simpl.
  rewrite !app_nil_r. reflexivity.
Qed.

(** X10: the last call wins.  [set_R] and [set_nsurf] each overwrite
    both the orientation and the normal, so the object after one of
    them does not depend on an earlier call of either; and the object
    after [set_box] does not depend on an earlier [set_box]. *)
Theorem X10_last_setter_wins
    (R R' : Matrix3s Scalar) (n n' : Vector3s Scalar)
    (box box' : Vector2s Scalar) (s : State Scalar) :
  this (run (set_R R) (run (set_nsurf q n') s)) = this (run (set_R R) s) /\
  this (run (set_R R) (run (set_R R') s)) = this (run (set_R R) s) /\
  this (run (set_nsurf q n) (run (set_R R') s)) = this (run (set_nsurf q n) s) /\
  this (run (set_nsurf q n) (run (set_nsurf q n') s))
    = this (run (set_nsurf q n) s) /\
  this (run (set_box box) (run (set_box box') s)) = this (run (set_box box) s).
Proof. rewrite !set_R_run, !set_nsurf_run, !set_box_run. repeat split. Qed.

(** X11: [set_box] commutes with [set_R] and with [set_nsurf]: the
    object is the same in either order.  (The lines on [std::cerr]
    come in the order of the calls.) *)
Theorem X11_set_box_commutes_with_orientation_setters
    (R : Matrix3s Scalar) (n : Vector3s Scalar) (box : Vector2s Scalar)
    (s : State Scalar) :
  this (run (set_box box) (run (set_R R) s))
    = this (run (set_R R) (run (set_box box) s)) /\
  run (set_box box) (run (set_R R) s) = run (set_R R) (run (set_box box) s) /\
  this (run (set_box box) (run (set_nsurf q n) s))
    = this (run (set_nsurf q n) (run (set_box box) s)).
Proof. rewrite !set_R_run, !set_nsurf_run, !set_box_run. repeat split. Qed.

(** X12: when only the second component of the extent is negative,
    [set_box] replaces it by [max], keeps the first, and the one line
    it writes names [box(0)], the first component. *)
Theorem X12_set_box_warning_names_first_component
    (box : Vector2s Scalar) (s : State Scalar) :
  negative (v2_0 box) = false ->
  negative (v2_1 box) = true ->
  get_box (run (set_box box) s) = Vec2 (v2_0 box) Smax /\
  cerr (run (set_box box) s)
    = cerr s ++
      ["Warning: box(0) has to be a positive value, set to max. float"%string].
Proof.
  unfold negative. intros H0 H1. rewrite set_box_run; simpl.
  rewrite H0, H1; simpl. rewrite app_nil_r. split; reflexivity.
Qed.

(** X14: one call of [update] brings a support region copied from a
    wrench cone to its own derivation: the matrix and bounds become
    the ones derived from the orientation and extent of the cone, and
    the orientation, normal and extent stay the ones copied. *)
Theorem X14_update_after_wrench_cone_copy
    (support : WrenchCone.WrenchConeTpl Scalar) (s : State Scalar) :
  CoPSupportTpl_WrenchCone support = Some s ->
  get_A (run update s)
    = derived_matrix (WrenchCone.get_R support) (WrenchCone.get_box support) /\
  get_ub (run update s) = Zero4 /\
  get_lb (run update s) = derived_lb /\
  get_R (run update s) = WrenchCone.get_R support /\
  get_nsurf (run update s) = WrenchCone.get_nsurf support /\
  get_box (run update s) = WrenchCone.get_box support /\
  Derived (run update s).
Proof.
  unfold CoPSupportTpl_WrenchCone. intro H.
  destruct (Matrix46s_of (WrenchCone.get_A support)) as [A | ];
    [ | discriminate].
  destruct (Vector4s_of (WrenchCone.get_ub support)) as [ub | ];
    [ | discriminate].
  destruct (Vector4s_of (WrenchCone.get_lb support)) as [lb | ];
    [ | discriminate].
  injection H as H. subst s.
  rewrite update_run. repeat split; rewrite update_run; reflexivity.
Qed.
End Setters.

Section Printing.
Context {Scalar : Type} {traits : ScalarTraits Scalar}.
Variable print_Matrix3s : Matrix3s Scalar -> string.
Variable print_RowVector3s : Vector3s Scalar -> string.
Variable print_RowVector2s : Vector2s Scalar -> string.

(** Writing to a stream is associative. *)
Lemma put_put (os a b : string) : put (put os a) b = put os (put a b).
Proof.
  unfold put. induction os as [ | c os IH]; simpl; [reflexivity|].
  rewrite IH; reflexivity.
Qed.

(** Writing to the empty stream. *)
Lemma put_empty (a : string) : put EmptyString a = a.
Proof. reflexivity. Qed.

(** X13: what [operator<<] writes is added after what the stream
    holds, and it is the same before and after [update]: the text
    shows the orientation, the normal and the extent, and nothing of
    the matrix and bounds, stale or not. *)
Theorem X13_printing_appends_and_hides_derived_members
    (os : string) (s : State Scalar) :
  operator_lshift print_Matrix3s print_RowVector3s print_RowVector2s os s
    = put os (operator_lshift print_Matrix3s print_RowVector3s
                              print_RowVector2s EmptyString s) /\
  operator_lshift print_Matrix3s print_RowVector3s print_RowVector2s
                  os (run update s)
    = operator_lshift print_Matrix3s print_RowVector3s print_RowVector2s os s.
Proof.
  split.
  - unfold operator_lshift. rewrite !put_put, put_empty. reflexivity.
  - destruct s as [c out]. reflexivity.
Qed.
End Printing.

(** ** The same at [Scalar = double] *)

(** X2 at a default-constructed object and the copy of [flat_cone]:
    they hold the same orientation and extent, and differ in the
    normal and in the matrix. *)
Lemma X2_update_reads_R_and_box_only_witness :
  get_R (CoPSupportTpl_default nan_storage) = get_R flat_copy /\
  get_box (CoPSupportTpl_default nan_storage) = get_box flat_copy /\
  (get_A (run update (CoPSupportTpl_default nan_storage))
     = get_A (run update flat_copy) /\
   get_ub (run update (CoPSupportTpl_default nan_storage))
     = get_ub (run update flat_copy) /\
   get_lb (run update (CoPSupportTpl_default nan_storage))
     = get_lb (run update flat_copy)).
Proof.
  split; [reflexivity|]. split; [reflexivity|].
  exact (X2_update_reads_R_and_box_only
           (CoPSupportTpl_default nan_storage) flat_copy eq_refl eq_refl).
Defined.

(** X4 at the state after [set_box((0.2, 0.1))] on a
    default-constructed object, whose matrix is stale.  The state is
    reachable whatever the rotation primitive is. *)
Lemma X4_reachable_matrix_is_a_derivation_witness :
  (forall q, Reachable q
               (run (set_box (Vec2 0.2 0.1)) (CoPSupportTpl_default nan_storage))) /\
  ((exists R box,
      get_A (run (set_box (Vec2 0.2 0.1)) (CoPSupportTpl_default nan_storage))
        = derived_matrix R box) /\
   box_symmetric
     (get_A (run (set_box (Vec2 0.2 0.1)) (CoPSupportTpl_default nan_storage))) /\
   get_ub (run (set_box (Vec2 0.2 0.1)) (CoPSupportTpl_default nan_storage))
     = Zero4 /\
   get_lb (run (set_box (Vec2 0.2 0.1)) (CoPSupportTpl_default nan_storage))
     = derived_lb).
Proof.
  split; [intro q; exact (reach_set_box _ (reach_default _ _)) |].
  exact (X4_reachable_matrix_is_a_derivation
           (reach_set_box (Vec2 0.2 0.1)
              (reach_default (rotation_between (fun v0 _ => v0)) nan_storage))).
Defined.

(** X5 at the state after [set_box((-1, -2))] and
    [set_nsurf((0, 0, 2))] on a default-constructed object, which has
    three lines on [std::cerr], whatever the rotation primitive is. *)
Lemma X5_reachable_cerr_only_warnings_witness :
  (forall q,
     Reachable q
       (run (set_nsurf q (Vec3 0 0 2))
            (run (set_box (Vec2 (-1) (-2))) (CoPSupportTpl_default nan_storage)))) /\
  (forall q,
     Forall is_warning
       (cerr (run (set_nsurf q (Vec3 0 0 2))
                  (run (set_box (Vec2 (-1) (-2)))
                       (CoPSupportTpl_default nan_storage))))).
Proof.
  split;
    [intro q; exact (reach_set_nsurf _ (reach_set_box _ (reach_default _ _))) |].
  exact (fun q =>
           X5_reachable_cerr_only_warnings
             (reach_set_nsurf (Vec3 0 0 2)
                (reach_set_box (Vec2 (-1) (-2)) (reach_default q nan_storage)))).
Defined.

(** X6 at the quarter turn and the extent (0.2, 0.1), from a
    default-constructed object. *)
Lemma X6_setters_and_update_rebuild_R_box_witness :
  negative 0.2 = false /\
  negative 0.1 = false /\
  (this (run update (run (set_box (Vec2 0.2 0.1))
                         (run (set_R quarter_turn_x) (CoPSupportTpl_default nan_storage))))
     = this (CoPSupportTpl_R_box nan_storage quarter_turn_x (Vec2 0.2 0.1)) /\
   cerr (run update (run (set_box (Vec2 0.2 0.1))
                         (run (set_R quarter_turn_x) (CoPSupportTpl_default nan_storage))))
     = cerr (CoPSupportTpl_default nan_storage)).
Proof.
  split; [reflexivity|]. split; [reflexivity|].
  exact (X6_setters_and_update_rebuild_R_box nan_storage quarter_turn_x
           (Vec2 0.2 0.1) (CoPSupportTpl_default nan_storage) eq_refl eq_refl).
Defined.

(** X7 at the normal (0, 0, 1) and the extent (0.2, 0.1), from a
    default-constructed object, whatever the rotation primitive is. *)
Lemma X7_setters_and_update_rebuild_nsurf_box_witness :
  isUnitary (Vec3 0 0 1) = true /\
  negative 0.2 = false /\
  negative 0.1 = false /\
  (forall q,
     this (run update
             (run (set_box (Vec2 0.2 0.1))
                  (run (set_nsurf q (Vec3 0 0 1))
                       (CoPSupportTpl_default nan_storage))))
       = this (CoPSupportTpl_nsurf_box q nan_storage (Vec3 0 0 1) (Vec2 0.2 0.1)) /\
     cerr (run update
             (run (set_box (Vec2 0.2 0.1))
                  (run (set_nsurf q (Vec3 0 0 1))
                       (CoPSupportTpl_default nan_storage))))
       = cerr (CoPSupportTpl_default nan_storage)).
Proof.
  split; [reflexivity|]. split; [reflexivity|]. split; [reflexivity|].
  exact (fun q =>
           X7_setters_and_update_rebuild_nsurf_box q nan_storage
             (Vec3 0 0 1) (Vec2 0.2 0.1) (CoPSupportTpl_default nan_storage)
             eq_refl eq_refl eq_refl).
Defined.

(** X8 on [double], where [DBL_MAX] is not below zero, at the extent
    (-1, 2). *)
Lemma X8_set_box_leaves_no_negative_component_witness :
  negative (Smax (Scalar:=float)) = false /\
  (negative (v2_0 (get_box (run (set_box (Vec2 (-1) 2)) (CoPSupportTpl_default nan_storage))))
     = false /\
   negative (v2_1 (get_box (run (set_box (Vec2 (-1) 2)) (CoPSupportTpl_default nan_storage))))
     = false).
Proof.
  split; [reflexivity|].
  exact (X8_set_box_leaves_no_negative_component (Vec2 (-1) 2)
           (CoPSupportTpl_default nan_storage) eq_refl).
Defined.

(** X9 on [double], at the extent (-1, 2). *)
Lemma X9_set_box_accepts_stored_extent_witness :
  negative (Smax (Scalar:=float)) = false /\
  run (set_box (get_box (run (set_box (Vec2 (-1) 2)) (CoPSupportTpl_default nan_storage))))
      (run (set_box (Vec2 (-1) 2)) (CoPSupportTpl_default nan_storage))
    = run (set_box (Vec2 (-1) 2)) (CoPSupportTpl_default nan_storage).
Proof.
  split; [reflexivity|].
  exact (X9_set_box_accepts_stored_extent (Vec2 (-1) 2)
           (CoPSupportTpl_default nan_storage) eq_refl).
Defined.

(** X12 at the extent (2, -1). *)
Lemma X12_set_box_warning_names_first_component_witness :
  negative 2 = false /\
  negative (-1) = true /\
  (get_box (run (set_box (Vec2 2 (-1))) (CoPSupportTpl_default nan_storage)) = Vec2 2 Smax /\
   cerr (run (set_box (Vec2 2 (-1))) (CoPSupportTpl_default nan_storage))
     = cerr (CoPSupportTpl_default nan_storage) ++
       ["Warning: box(0) has to be a positive value, set to max. float"%string]).
Proof.
  split; [reflexivity|]. split; [reflexivity|].
  exact (X12_set_box_warning_names_first_component (Vec2 2 (-1))
           (CoPSupportTpl_default nan_storage) eq_refl eq_refl).
Defined.

(** X14 at [flat_cone], whose copy is [flat_copy]. *)
Lemma X14_update_after_wrench_cone_copy_witness :
  CoPSupportTpl_WrenchCone flat_cone = Some flat_copy /\
  (get_A (run update flat_copy)
     = derived_matrix (WrenchCone.get_R flat_cone) (WrenchCone.get_box flat_cone) /\
   get_ub (run update flat_copy) = Zero4 /\
   get_lb (run update flat_copy) = derived_lb /\
   get_R (run update flat_copy) = WrenchCone.get_R flat_cone /\
   get_nsurf (run update flat_copy) = WrenchCone.get_nsurf flat_cone /\
   get_box (run update flat_copy) = WrenchCone.get_box flat_cone /\
   Derived (run update flat_copy)).
Proof.
  split; [reflexivity|].
  exact (X14_update_after_wrench_cone_copy flat_cone eq_refl).
Defined.
